(** * kener-telegram-relay: a shallow embedding of [src/index.ts]

    The relay receives a Kener webhook, normalises the payload, renders a
    Telegram HTML message and posts it.  This development embeds the
    functions of [src/index.ts] as Rocq functions and proves the
    properties the specification states about them.

    Conventions.
    - A JavaScript string is modelled by the [string] of its UTF-8 bytes,
      so that [Buffer.from(s, "utf8")] is the list of its bytes.
    - A value that came out of [JSON.parse] is a [json]; [undefined] is
      the [None] of an [option json].
    - A JavaScript exception is the [Throw] of the [result] monad.
    - What the JavaScript runtime provides (number parsing and printing,
      [Date], [JSON.stringify]) is a parameter: the classes [JsNumber] and
      [JsRuntime].  The clock and the network are arguments of the
      functions that read them. *)

From Stdlib Require Import String Ascii List ZArith Bool Lia.
From Stdlib Require Import Strings.Byte DecimalString.
Import ListNotations.
Local Open Scope list_scope.
Local Open Scope string_scope.

Set Warnings "-register-all".

(** ** Exceptions *)

Inductive exn : Type :=
| TypeError
| RangeError
| NetworkError
| Error (message : string).

Inductive result (A : Type) : Type :=
| Ok (a : A)
| Throw (e : exn).

Arguments Ok {A} a.
Arguments Throw {A} e.

Definition bind {A B : Type} (r : result A) (f : A -> result B) : result B :=
  match r with
  | Ok a => f a
  | Throw e => Throw e
  end.

Notation "x <- r ;; k" := (bind r (fun x => k))
  (at level 61, r at next level, right associativity).

Definition succeeds {A : Type} (r : result A) : Prop := exists a, r = Ok a.

(** ** Strings *)

Definition dquote : string := String "034"%char "".
Definition newline : string := String "010"%char "".

(** [s || ""] on a string. *)
Definition or_empty (s : string) : string :=
  match s with
  | "" => ""
  | _ => s
  end.

(** [s.replace(/c/g, r)] for a one-character pattern [c] and a replacement
    [r] without [$]. *)
Fixpoint replace_all (c : ascii) (r : string) (s : string) : string :=
  match s with
  | "" => ""
  | String x s' =>
      if Ascii.eqb x c then r ++ replace_all c r s'
      else String x (replace_all c r s')
  end.

(** [lines.join(sep)] is [String.concat sep lines]. *)

(** [s.startsWith(p)]. *)
Fixpoint starts_with (p s : string) : bool :=
  match p, s with
  | "", _ => true
  | String _ _, "" => false
  | String a p', String b s' => Ascii.eqb a b && starts_with p' s'
  end.

(** [occurs p s]: [p] is a substring of [s] ([s.includes(p)]). *)
Fixpoint occurs (p s : string) : bool :=
  starts_with p s ||
  match s with
  | "" => false
  | String _ s' => occurs p s'
  end.

(** [has_char c s]: the character [c] occurs in [s]. *)
Fixpoint has_char (c : ascii) (s : string) : bool :=
  match s with
  | "" => false
  | String x s' => Ascii.eqb x c || has_char c s'
  end.

(** The white space and line terminators [String.prototype.trim] strips,
    as UTF-8 byte sequences: TAB, LF, VT, FF, CR, SP, U+00A0, U+1680,
    U+2000..U+200A, U+2028, U+2029, U+202F, U+205F, U+3000, U+FEFF. *)
Definition bytes (l : list nat) : string :=
  string_of_list_ascii (map ascii_of_nat l).

Definition white_space : list string :=
  map bytes
    [ [9]; [10]; [11]; [12]; [13]; [32]; [194; 160]; [225; 154; 128];
      [226; 128; 128]; [226; 128; 129]; [226; 128; 130]; [226; 128; 131];
      [226; 128; 132]; [226; 128; 133]; [226; 128; 134]; [226; 128; 135];
      [226; 128; 136]; [226; 128; 137]; [226; 128; 138];
      [226; 128; 168]; [226; 128; 169]; [226; 128; 175];
      [226; 129; 159]; [227; 128; 128]; [239; 187; 191] ].

(** Drop one leading white-space sequence, if there is one. *)
Fixpoint strip_one (ws : list string) (s : string) : option string :=
  match ws with
  | [] => None
  | w :: ws' =>
      if starts_with w s
      then Some (substring (String.length w) (String.length s - String.length w) s)
      else strip_one ws' s
  end.

Fixpoint trim_start_fuel (fuel : nat) (s : string) : string :=
  match fuel with
  | O => s
  | S fuel' =>
      match strip_one white_space s with
      | Some s' => trim_start_fuel fuel' s'
      | None => s
      end
  end.

Definition trim_start (s : string) : string := trim_start_fuel (String.length s) s.

Definition rev_string (s : string) : string :=
  string_of_list_ascii (rev (list_ascii_of_string s)).

(** A white-space sequence at the end of [s] is its reverse at the start of
    the reverse of [s]. *)
Fixpoint trim_rev_fuel (fuel : nat) (r : string) : string :=
  match fuel with
  | O => r
  | S fuel' =>
      match strip_one (map rev_string white_space) r with
      | Some r' => trim_rev_fuel fuel' r'
      | None => r
      end
  end.

Definition trim_end (s : string) : string :=
  rev_string (trim_rev_fuel (String.length s) (rev_string s)).

(** [s.trim()]. *)
Definition trim (s : string) : string := trim_end (trim_start s).

(** ** Association lists: JavaScript objects read by key *)

Fixpoint lookup {V : Type} (key : string) (fields : list (string * V)) : option V :=
  match fields with
  | [] => None
  | (k, v) :: rest => if String.eqb k key then Some v else lookup key rest
  end.

Definition has_key {V : Type} (key : string) (fields : list (string * V)) : bool :=
  match lookup key fields with
  | Some _ => true
  | None => false
  end.

(** ** The JavaScript runtime, part 1: numbers

    [Num] is the type of JavaScript numbers.  The program never computes
    with numbers; it tests them, parses them from text and prints them. *)

Class JsNumber : Type := {
  Num : Type;
  (** [0], [-0] and [NaN]: the numbers that are falsy. *)
  num_is_falsy : Num -> bool;
  (** [Number.isFinite(n)]. *)
  num_is_finite : Num -> bool;
  (** [n <= 0]. *)
  num_le_zero : Num -> bool;
  (** [String(n)], which is also [n.toString()]. *)
  num_to_string : Num -> string;
  (** [Number(s)]. *)
  Number_of_string : string -> Num
}.

Section Values.

Context {JN : JsNumber}.

(** ** JSON values *)

Inductive json : Type :=
| JNull
| JBool (b : bool)
| JNum (n : Num)
| JStr (s : string)
| JArr (items : list json)
| JObj (fields : list (string * json)).

(** ToBoolean. *)
Definition truthy (v : json) : bool :=
  match v with
  | JNull => false
  | JBool b => b
  | JNum n => negb (num_is_falsy n)
  | JStr "" => false
  | JStr _ => true
  | JArr _ => true
  | JObj _ => true
  end.

(** [x || d], where [x] may be [undefined]. *)
Definition or_default (x : option json) (d : json) : json :=
  match x with
  | Some v => if truthy v then v else d
  | None => d
  end.

(** [x ?? d], where [x] may be [undefined]. *)
Definition nullish (x : option json) (d : json) : json :=
  match x with
  | None => d
  | Some JNull => d
  | Some v => v
  end.

(** [v.key] on a value that is neither [null] nor [undefined], for a [key]
    that no built-in prototype defines (every key this program reads):
    an own property of an object, [undefined] on anything else. *)
Definition get (v : json) (key : string) : option json :=
  match v with
  | JObj fields => lookup key fields
  | _ => None
  end.

(** [a?.key]. *)
Definition opt_get (a : option json) (key : string) : option json :=
  match a with
  | None => None
  | Some JNull => None
  | Some v => get v key
  end.

(** [v === s] for a string literal [s]. *)
Definition is_string (v : json) (s : string) : bool :=
  match v with
  | JStr x => String.eqb x s
  | _ => false
  end.

(** ToString, as [String(v)] and template literals apply it.  An array is
    joined with commas, [null] items printing as nothing.  An object parsed
    from JSON has [Object.prototype] as prototype and no callable own
    property: it prints as [[object Object]], unless it has an own
    [toString] key, which hides [Object.prototype.toString] behind a value
    that cannot be called, and then the conversion throws. *)
Fixpoint ToString (v : json) : result string :=
  match v with
  | JNull => Ok "null"
  | JBool true => Ok "true"
  | JBool false => Ok "false"
  | JNum n => Ok (num_to_string n)
  | JStr s => Ok s
  | JArr items =>
      (fix join (l : list json) : result string :=
         match l with
         | [] => Ok ""
         | x :: rest =>
             a <- match x with
                  | JNull => Ok ""
                  | _ => ToString x
                  end ;;
             match rest with
             | [] => Ok a
             | _ => b <- join rest ;; Ok (a ++ "," ++ b)
             end
         end) items
  | JObj fields =>
      if has_key "toString" fields then Throw TypeError
      else Ok "[object Object]"
  end.

(** [v.toString()]: the method call.  It differs from [ToString] on [null]
    only, which has no properties. *)
Definition call_toString (v : json) : result string :=
  match v with
  | JNull => Throw TypeError
  | _ => ToString v
  end.

(** ** [timingSafeEq] (index.ts, lines 72-77) *)

(** [crypto.timingSafeEqual(a, b)]: throws a [RangeError] when the two
    buffers differ in length, else compares every byte. *)
Fixpoint bytes_equal (a b : list byte) : bool :=
  match a, b with
  | [], [] => true
  | x :: a', y :: b' => Byte.eqb x y && bytes_equal a' b'
  | _, _ => false
  end.

Definition crypto_timingSafeEqual (a b : list byte) : result bool :=
  if Nat.eqb (length a) (length b) then Ok (bytes_equal a b)
  else Throw RangeError.

(** [Buffer.from(s, "utf8")]. *)
Definition Buffer_from (s : string) : list byte := list_byte_of_string s.

Definition timingSafeEq (a b : string) : result bool :=
  let ba := Buffer_from (or_empty a) in
  let bb := Buffer_from (or_empty b) in
  if negb (Nat.eqb (length ba) (length bb)) then Ok false
  else crypto_timingSafeEqual ba bb.

(** The gate of the POST handler (index.ts, lines 213-218): with no secret
    configured every request passes, else the presented token must equal
    the secret. *)
Definition authorize (presentedToken configuredSecret : string) : result bool :=
  match configuredSecret with
  | "" => Ok true
  | _ => timingSafeEq presentedToken configuredSecret
  end.

(** ** [escapeHtml] (index.ts, lines 79-84) *)

(** The three replacements, on a string. *)
Definition escape (s : string) : string :=
  replace_all ">" "&gt;" (replace_all "<" "&lt;" (replace_all "&" "&amp;" s)).

(** [(s || "").replace(...)...]: a falsy argument becomes the empty string;
    a truthy value that is not a string has no [replace] method. *)
Definition escapeHtml (s : json) : result string :=
  match or_default (Some s) (JStr "") with
  | JStr x => Ok (escape x)
  | _ => Throw TypeError
  end.

(** ** [pickAction] and [normalize] (index.ts, lines 86-110) *)

(** The parsed body of a request: a JSON object, read by key.  (A body
    that is a JSON array has none of the keys the relay reads and behaves
    as the empty object.) *)
Definition KenerPayload : Type := list (string * json).

Record NormalizedAlert : Type := {
  id : json;
  alertName : json;
  severity : json;
  status : json;
  source : json;
  timestamp : json;
  description : string;
  metric : string;
  currentValue : json;
  threshold : json;
  actionText : json;
  actionUrl : json
}.

Record Action : Type := { text : json; url : json }.

(** [Array.isArray(p.actions) && p.actions.length ? p.actions[0] :
    undefined]. *)
Definition first_action (p : KenerPayload) : option json :=
  match lookup "actions" p with
  | Some (JArr (first :: _)) => Some first
  | _ => None
  end.

Definition pickAction (p : KenerPayload) : Action :=
  let a := first_action p in
  {| text := or_default (opt_get a "text") (JStr "Open");
     url := or_default (opt_get a "url") (JStr "") |}.

(** [now] is what [new Date().toISOString()] returns at the call. *)
Definition normalize (now : string) (p : KenerPayload) : result NormalizedAlert :=
  let action := pickAction p in
  let details := nullish (lookup "details" p) (JObj []) in
  description <- call_toString (or_default (lookup "description" p) (JStr "")) ;;
  metric <- call_toString (or_default (get details "metric") (JStr "")) ;;
  Ok {| id := or_default (lookup "id" p) (JStr "");
        alertName := or_default (lookup "alert_name" p) (JStr "Alert");
        severity := or_default (lookup "severity" p) (JStr "unknown");
        status := or_default (lookup "status" p) (JStr "UNKNOWN");
        source := or_default (lookup "source" p) (JStr "Kener");
        timestamp := or_default (lookup "timestamp" p) (JStr now);
        description := description;
        metric := metric;
        currentValue := nullish (get details "current_value") JNull;
        threshold := nullish (get details "threshold") JNull;
        actionText := text action;
        actionUrl := url action |}.

End Values.

(** ** The JavaScript runtime, part 2: dates, JSON printing *)

Class JsRuntime {JN : JsNumber} : Type := {
  (** A valid time value; an Invalid Date is the [None] of [option Time]. *)
  Time : Type;
  (** The time value of [new Date(s)] for a string [s]. *)
  Date_parse : string -> option Time;
  (** [new Date(v)] for a value [v] that is not a string; the conversion
      of an object to a primitive may throw. *)
  Date_of_value : json -> result (option Time);
  (** [Intl.DateTimeFormat("en-GB", {dateStyle: "medium", timeStyle:
      "short", timeZone: "UTC"}).format(t)] for a valid time value. *)
  format_en_GB : Time -> result string;
  (** [JSON.stringify(v)]. *)
  JSON_stringify : json -> string
}.

Section Relay.

Context {JN : JsNumber} {RT : JsRuntime}.

(** ** [formatTime] (index.ts, lines 112-124) *)

Definition new_Date (v : json) : result (option Time) :=
  match v with
  | JStr s => Ok (Date_parse s)
  | _ => Date_of_value v
  end.

(** [Date.prototype.toLocaleString] (ECMA-402): an Invalid Date prints as
    ["Invalid Date"], without an exception and before the options are
    looked at. *)
Definition toLocaleString (d : option Time) : result string :=
  match d with
  | None => Ok "Invalid Date"
  | Some t => format_en_GB t
  end.

Definition formatTime (iso : json) : json :=
  match (d <- new_Date iso ;; s <- toLocaleString d ;; Ok (s ++ " UTC")) with
  | Ok s => JStr s
  | Throw _ => iso
  end.

(** ** [buildTelegramMessage] (index.ts, lines 126-175) *)

(** The glyph literals, byte for byte as they stand in the source file. *)
Definition glyph_triggered : string :=
  Eval cbv in bytes [239; 163; 191; 195; 188; 195; 182; 194; 174].
Definition glyph_resolved : string :=
  Eval cbv in bytes [226; 128; 154; 195; 186; 195; 150].
Definition glyph_other : string :=
  Eval cbv in bytes [226; 128; 154; 195; 145; 207; 128; 195; 148; 226; 136; 143; 195; 168].
Definition glyph_critical : string :=
  Eval cbv in bytes [239; 163; 191; 195; 188; 195; 174; 194; 165].
Definition glyph_warning : string :=
  Eval cbv in bytes [239; 163; 191; 195; 188; 195; 188; 226; 128; 160].
Definition glyph_default : string :=
  Eval cbv in bytes [239; 163; 191; 195; 188; 195; 188; 194; 162].

Definition statusEmoji (k : NormalizedAlert) : string :=
  if is_string (status k) "TRIGGERED" then glyph_triggered
  else if is_string (status k) "RESOLVED" then glyph_resolved
  else glyph_other.

Definition severityEmoji (k : NormalizedAlert) : string :=
  if is_string (severity k) "critical" then glyph_critical
  else if is_string (severity k) "warning" then glyph_warning
  else glyph_default.

Definition nonempty (s : string) : bool :=
  match s with
  | "" => false
  | _ => true
  end.

Definition not_null (v : json) : bool :=
  match v with
  | JNull => false
  | _ => true
  end.

(** [if (c) lines.push(...)]: the pushed lines are computed only when the
    condition holds. *)
Definition when (c : bool) (pushed : result (list string)) : result (list string) :=
  if c then pushed else Ok [].

(** The array [lines] as it stands before [join]. *)
Definition message_lines (k : NormalizedAlert) : result (list string) :=
  name <- ToString (alertName k) ;;
  title <- escapeHtml (JStr (statusEmoji k ++ " " ++ name)) ;;
  desc <- when (nonempty (description k))
            (d <- escapeHtml (JStr (description k)) ;; Ok [""; d]) ;;
  sev <- escapeHtml (severity k) ;;
  st <- escapeHtml (status k) ;;
  src <- when (truthy (source k))
           (s <- escapeHtml (source k) ;;
            Ok ["<b>Source:</b> <code>" ++ s ++ "</code>"]) ;;
  mon <- when (nonempty (metric k))
           (s <- escapeHtml (JStr (metric k)) ;;
            Ok ["<b>Monitor:</b> <code>" ++ s ++ "</code>"]) ;;
  cur <- when (not_null (currentValue k))
           (v <- ToString (currentValue k) ;;
            s <- escapeHtml (JStr v) ;;
            Ok ["<b>Current:</b> <code>" ++ s ++ "</code>"]) ;;
  thr <- when (not_null (threshold k))
           (v <- ToString (threshold k) ;;
            s <- escapeHtml (JStr v) ;;
            Ok ["<b>Threshold:</b> <code>" ++ s ++ "</code>"]) ;;
  tim <- when (truthy (timestamp k))
           (s <- escapeHtml (formatTime (timestamp k)) ;;
            Ok ["<b>Time:</b> <code>" ++ s ++ "</code>"]) ;;
  lnk <- when (truthy (actionUrl k))
           (u <- escapeHtml (actionUrl k) ;;
            t <- escapeHtml (actionText k) ;;
            Ok [newline ++ "<a href=" ++ dquote ++ u ++ dquote ++ ">" ++ t ++ "</a>"]) ;;
  let head := "<b>" ++ title ++ "</b>" in
  let sevl := severityEmoji k ++ " <b>Severity:</b> <code>" ++ sev ++ "</code>" in
  let stl := "<b>Status:</b> <code>" ++ st ++ "</code>" in
  Ok ([head] ++ desc ++ [""; sevl; stl] ++ src ++ mon ++ cur ++ thr ++ tim ++ lnk)%list.

Definition buildTelegramMessage (k : NormalizedAlert) : result string :=
  lines <- message_lines k ;;
  Ok (String.concat newline lines).

(** ** [sendTelegram] (index.ts, lines 177-205) *)

Record AppConfig : Type := {
  port : Num;
  kenerWebhookSecret : string;
  telegramBotToken : string;
  telegramChatId : string
}.

Definition TELEGRAM_PARSE_MODE : string := "HTML".

Record FetchInit : Type := {
  init_method : string;
  init_headers : list (string * string);
  init_body : string
}.

(** What [fetch] resolves to: [resp.ok], [resp.status], and what
    [resp.json()] settles to. *)
Record Response : Type := {
  resp_ok : bool;
  resp_status : Num;
  resp_json : result json
}.

(** The network: what [fetch(url, init)] settles to. *)
Definition Fetch : Type := string -> FetchInit -> result Response.

Definition telegram_url (cfg : AppConfig) : string :=
  "https://api.telegram.org/bot" ++ telegramBotToken cfg ++ "/sendMessage".

Definition telegram_init (text : string) (cfg : AppConfig) : FetchInit :=
  {| init_method := "POST";
     init_headers := [("Content-Type", "application/json")];
     init_body :=
       JSON_stringify
         (JObj [("chat_id", JStr (telegramChatId cfg));
                ("text", JStr text);
                ("parse_mode", JStr TELEGRAM_PARSE_MODE);
                ("disable_web_page_preview", JBool true)]) |}.

(** [x] is truthy, where [x] may be [undefined]. *)
Definition truthy_opt (x : option json) : bool :=
  match x with
  | Some v => truthy v
  | None => false
  end.

Definition sendTelegram_failed (st : Num) (data : json) : exn :=
  Error ("Telegram sendMessage failed: HTTP " ++ num_to_string st
         ++ " body=" ++ JSON_stringify data).

Definition sendTelegram (fetch : Fetch) (text : string) (cfg : AppConfig) : result unit :=
  resp <- fetch (telegram_url cfg) (telegram_init text cfg) ;;
  let data :=
    match resp_json resp with
    | Ok d => d
    | Throw _ => JNull
    end in
  if negb (resp_ok resp) || negb (truthy_opt (opt_get (Some data) "ok"))
  then Throw (sendTelegram_failed (resp_status resp) data)
  else Ok tt.

(** ** The POST handler (index.ts, lines 211-231) *)

(** A request: the header map of Node, whose keys are in lower case and
    in which [req.header(name)] looks the lower-cased name up, and the body
    [express.json] parsed. *)
Record Request : Type := {
  req_headers : list (string * string);
  req_body : KenerPayload
}.

(** What the handler does to the outside, in the order it does it. *)
Inductive Effect : Type :=
| Respond (code : Z) (body : json)
| Outbound (url : string) (init : FetchInit)
| ConsoleError (e : exn).

(** [x || ""] on a string that may be [undefined]. *)
Definition str_or (x : option string) (d : string) : string :=
  match x with
  | Some (String c s) => String c s
  | _ => d
  end.

Definition unauthorized : Effect :=
  Respond 401 (JObj [("ok", JBool false); ("error", JStr "invalid token")]).

Definition acknowledged : Effect :=
  Respond 200 (JObj [("ok", JBool true)]).

(** The header value the handler compares with the secret. *)
Definition presented (req : Request) : string :=
  trim (str_or (lookup "x-kener-token" (req_headers req)) "").

(** The part of the handler after the gate.  The second component tells
    whether the handler returned or threw. *)
Definition relay (cfg : AppConfig) (now : string) (fetch : Fetch) (req : Request)
  : list Effect * result unit :=
  match (k <- normalize now (req_body req) ;; buildTelegramMessage k) with
  | Throw e => ([acknowledged], Throw e)
  | Ok msg =>
      let sent := Outbound (telegram_url cfg) (telegram_init msg cfg) in
      match sendTelegram fetch msg cfg with
      | Ok _ => ([acknowledged; sent], Ok tt)
      | Throw e => ([acknowledged; sent; ConsoleError e], Ok tt)
      end
  end.

Definition post_root (cfg : AppConfig) (now : string) (fetch : Fetch) (req : Request)
  : list Effect * result unit :=
  if nonempty (kenerWebhookSecret cfg) then
    match timingSafeEq (presented req) (kenerWebhookSecret cfg) with
    | Throw e => ([], Throw e)
    | Ok false => ([unauthorized], Ok tt)
    | Ok true => relay cfg now fetch req
    end
  else relay cfg now fetch req.

(** ** [loadConfig] (index.ts, lines 32-55) *)

Definition Env : Type := list (string * string).

Definition loadConfig (env : Env) : result AppConfig :=
  let portRaw := trim (str_or (lookup "PORT" env) "3000") in
  let port := Number_of_string portRaw in
  if negb (num_is_finite port) || num_le_zero port
  then Throw (Error ("Invalid PORT value " ++ dquote ++ portRaw ++ dquote))
  else
    let telegramBotToken := trim (str_or (lookup "TELEGRAM_BOT_TOKEN" env) "") in
    if negb (nonempty telegramBotToken) then Throw (Error "Missing TELEGRAM_BOT_TOKEN")
    else
      let telegramChatId := trim (str_or (lookup "TELEGRAM_CHAT_ID" env) "") in
      if negb (nonempty telegramChatId) then Throw (Error "Missing TELEGRAM_CHAT_ID")
      else
        Ok {| port := port;
              kenerWebhookSecret := trim (str_or (lookup "KENER_WEBHOOK_SECRET" env) "");
              telegramBotToken := telegramBotToken;
              telegramChatId := telegramChatId |}.

End Relay.

(** ** A runtime to compute with

    The theorems below hold for every runtime.  The examples need one to
    run on: [Demo] is a runtime whose numbers are the integers, [NaN] and
    the two infinities, whose [Number] reads decimal integer literals, and
    whose [Date] reads the format [toISOString] prints. *)

Module Demo.

Inductive num : Type :=
| NaN
| Infinity (negative : bool)
| Int (z : Z).

Definition is_falsy (n : num) : bool :=
  match n with
  | NaN => true
  | Int z => Z.eqb z 0%Z
  | Infinity _ => false
  end.

Definition is_finite (n : num) : bool :=
  match n with
  | Int _ => true
  | _ => false
  end.

Definition le_zero (n : num) : bool :=
  match n with
  | NaN => false
  | Infinity negative => negative
  | Int z => Z.leb z 0%Z
  end.

Definition decimal (z : Z) : string :=
  DecimalString.NilZero.string_of_int (Z.to_int z).

Definition to_string (n : num) : string :=
  match n with
  | NaN => "NaN"
  | Infinity false => "Infinity"
  | Infinity true => "-Infinity"
  | Int z => decimal z
  end.

Fixpoint digits_from (acc : Z) (s : string) : option Z :=
  match s with
  | "" => Some acc
  | String c s' =>
      let d := (Z.of_nat (nat_of_ascii c) - 48)%Z in
      if (Z.leb 0 d && Z.leb d 9)%bool then digits_from (10 * acc + d)%Z s' else None
  end.

(** The value of a non-empty string of decimal digits. *)
Definition digits (s : string) : option Z :=
  match s with
  | "" => None
  | _ => digits_from 0%Z s
  end.

Definition of_digits (negative : bool) (s : string) : num :=
  match digits s with
  | Some z => Int (if negative then - z else z)
  | None => NaN
  end.

(** [Number(s)] on an already trimmed string: the empty string is [0]. *)
Definition of_string (s : string) : num :=
  match s with
  | "" => Int 0%Z
  | String c s' =>
      if (String.eqb s "Infinity" || String.eqb s "+Infinity")%bool then Infinity false
      else if String.eqb s "-Infinity" then Infinity true
      else if Ascii.eqb c "-" then of_digits true s'
      else if Ascii.eqb c "+" then of_digits false s'
      else of_digits false s
  end.

#[export] Instance number : JsNumber := {|
  Num := num;
  num_is_falsy := is_falsy;
  num_is_finite := is_finite;
  num_le_zero := le_zero;
  num_to_string := to_string;
  Number_of_string := of_string
|}.

(** Days since 1970-01-01 of a date of the proleptic Gregorian calendar,
    and back. *)
Definition days_from_civil (y m d : Z) : Z :=
  (let y := if m <=? 2 then y - 1 else y in
   let era := y / 400 in
   let yoe := y - era * 400 in
   let doy := (153 * (if 2 <? m then m - 3 else m + 9) + 2) / 5 + d - 1 in
   let doe := yoe * 365 + yoe / 4 - yoe / 100 + doy in
   era * 146097 + doe - 719468)%Z.

Definition civil_from_days (z : Z) : Z * Z * Z :=
  (let z := z + 719468 in
   let era := z / 146097 in
   let doe := z - era * 146097 in
   let yoe := (doe - doe / 1460 + doe / 36524 - doe / 146096) / 365 in
   let doy := doe - (365 * yoe + yoe / 4 - yoe / 100) in
   let mp := (5 * doy + 2) / 153 in
   let d := doy - (153 * mp + 2) / 5 + 1 in
   let m := if mp <? 10 then mp + 3 else mp - 9 in
   ((if m <=? 2 then yoe + era * 400 + 1 else yoe + era * 400), m, d))%Z.

Definition in_range (lo x hi : Z) : bool := (Z.leb lo x && Z.leb x hi)%bool.

(** [YYYY-MM-DDTHH:mm:ss.sssZ], in milliseconds since the epoch. *)
Definition parse_iso (s : string) : option Z :=
  if negb (Nat.eqb (String.length s) 24
           && String.eqb (substring 4 1 s) "-" && String.eqb (substring 7 1 s) "-"
           && String.eqb (substring 10 1 s) "T" && String.eqb (substring 13 1 s) ":"
           && String.eqb (substring 16 1 s) ":" && String.eqb (substring 19 1 s) "."
           && String.eqb (substring 23 1 s) "Z")%bool
  then None
  else
    match digits (substring 0 4 s), digits (substring 5 2 s), digits (substring 8 2 s),
          digits (substring 11 2 s), digits (substring 14 2 s), digits (substring 17 2 s),
          digits (substring 20 3 s) with
    | Some y, Some m, Some d, Some h, Some mi, Some sec, Some ms =>
        if (in_range 1 m 12 && in_range 1 d 31 && in_range 0 h 23
            && in_range 0 mi 59 && in_range 0 sec 59)%Z%bool
        then
          let day := days_from_civil y m d in
          match civil_from_days day with
          | (y', m', d') =>
              if (Z.eqb y y' && Z.eqb m m' && Z.eqb d d')%bool
              then Some ((((day * 24 + h) * 60 + mi) * 60 + sec) * 1000 + ms)%Z
              else None
          end
        else None
    | _, _, _, _, _, _, _ => None
    end.

(** TimeClip. *)
Definition time_of_num (n : num) : option Z :=
  match n with
  | Int z => if in_range (-8640000000000000)%Z z 8640000000000000%Z then Some z else None
  | _ => None
  end.

Definition of_value (v : json) : result (option Z) :=
  match v with
  | JNull => Ok (Some 0%Z)
  | JBool false => Ok (Some 0%Z)
  | JBool true => Ok (Some 1%Z)
  | JNum n => Ok (time_of_num n)
  | _ => s <- ToString v ;; Ok (parse_iso s)
  end.

Definition month_name (m : Z) : string :=
  nth (Z.to_nat (m - 1)%Z)
    ["Jan"; "Feb"; "Mar"; "Apr"; "May"; "Jun"; "Jul"; "Aug"; "Sep"; "Oct"; "Nov"; "Dec"] "".

Definition two_digits (z : Z) : string :=
  if Z.ltb z 10%Z then "0" ++ decimal z else decimal z.

(** Medium date, short time, as [en-GB] prints them in UTC. *)
Definition format (t : Z) : result string :=
  let minutes := (t / 60000)%Z in
  let day := (minutes / 1440)%Z in
  let minute_of_day := (minutes - day * 1440)%Z in
  match civil_from_days day with
  | (y, m, d) =>
      Ok (decimal d ++ " " ++ month_name m ++ " "
          ++ decimal (if Z.leb y 0 then 1 - y else y)%Z ++ ", "
          ++ two_digits (minute_of_day / 60)%Z ++ ":"
          ++ two_digits (minute_of_day - (minute_of_day / 60) * 60)%Z)
  end.

Definition hex_digit (n : nat) : string :=
  substring n 1 "0123456789abcdef".

(** One character of a string, as [JSON.stringify] quotes it. *)
Definition quote_char (c : ascii) : string :=
  let n := nat_of_ascii c in
  if Nat.eqb n 34 then "\" ++ dquote
  else if Nat.eqb n 92 then "\\"
  else if Nat.eqb n 8 then "\b"
  else if Nat.eqb n 9 then "\t"
  else if Nat.eqb n 10 then "\n"
  else if Nat.eqb n 12 then "\f"
  else if Nat.eqb n 13 then "\r"
  else if Nat.ltb n 32 then "\u00" ++ hex_digit (n / 16) ++ hex_digit (n mod 16)
  else String c "".

Definition quote (s : string) : string :=
  dquote ++ String.concat "" (map quote_char (list_ascii_of_string s)) ++ dquote.

(** [JSON.stringify]. *)
Fixpoint stringify (v : json) : string :=
  match v with
  | JNull => "null"
  | JBool true => "true"
  | JBool false => "false"
  | JNum (Int z) => decimal z
  | JNum _ => "null"
  | JStr s => quote s
  | JArr items =>
      "[" ++ String.concat "," (map stringify items) ++ "]"
  | JObj fields =>
      "{" ++ String.concat ","
               (map (fun kv => quote (fst kv) ++ ":" ++ stringify (snd kv)) fields)
          ++ "}"
  end.

#[export] Instance runtime : JsRuntime := {|
  Time := Z;
  Date_parse := parse_iso;
  Date_of_value := of_value;
  format_en_GB := format;
  JSON_stringify := stringify
|}.

End Demo.

(** ** Vocabulary of the statements *)

(** What [escapeHtml] makes of one character. *)
Definition escape_char (c : ascii) : string :=
  if Ascii.eqb c "&" then "&amp;"
  else if Ascii.eqb c "<" then "&lt;"
  else if Ascii.eqb c ">" then "&gt;"
  else String c "".

Fixpoint expand (f : ascii -> string) (s : string) : string :=
  match s with
  | "" => ""
  | String c s' => f c ++ expand f s'
  end.

(** The tags the formatter writes, and the entities [escapeHtml] writes. *)
Definition formatter_tags : list string :=
  ["<b>"; "</b>"; "<code>"; "</code>"; "<a href=" ++ dquote; "</a>"].

Definition entities : list string := ["&amp;"; "&lt;"; "&gt;"].

Definition starts_any (l : list string) (s : string) : bool :=
  existsb (fun t => starts_with t s) l.

(** A scan of a message, left to right.  [in_tag] tells whether the scan is
    between the [<] and the [>] of a tag.  The scan stops with [None] at a
    [<] that does not open one of the formatter's tags, at a [>] that does
    not close a tag, and at a [&] that does not open an entity. *)
Fixpoint scan (in_tag : bool) (s : string) : option bool :=
  match s with
  | "" => Some in_tag
  | String c s' =>
      if Ascii.eqb c "<" then
        if negb in_tag && starts_any formatter_tags s then scan true s' else None
      else if Ascii.eqb c ">" then
        if in_tag then scan false s' else None
      else if Ascii.eqb c "&" then
        if starts_any entities s then scan in_tag s' else None
      else scan in_tag s'
  end.

(** Every [<], [>] and [&] of the message belongs to a tag of the formatter
    or to an entity. *)
Definition only_formatter_markup (msg : string) : Prop :=
  scan false msg = Some false.

(** A line the scan enters and leaves outside a tag. *)
Definition neutral (line : string) : Prop :=
  forall rest, scan false (line ++ rest) = scan false rest.

(** No end of [m] is a beginning of [p]: an occurrence of [p] cannot start
    in [m] and run past its end. *)
Fixpoint no_overlap (p m : string) : bool :=
  match m with
  | "" => true
  | String _ m' => negb (starts_with m p) && no_overlap p m'
  end.

(** The shapes of the lines of a message. *)
Definition head_line (glyph name : string) : string :=
  "<b>" ++ escape (glyph ++ " " ++ name) ++ "</b>".

Definition code_line (label value : string) : string :=
  label ++ " <code>" ++ escape value ++ "</code>".

Definition severity_line (glyph value : string) : string :=
  glyph ++ " " ++ code_line "<b>Severity:</b>" value.

Definition link_open : string := newline ++ "<a href=" ++ dquote.

Definition link_line (target caption : string) : string :=
  link_open ++ escape target ++ dquote ++ ">" ++ escape caption ++ "</a>".

(** The glyphs and the labels of a message. *)
Definition status_glyphs : list string := [glyph_triggered; glyph_resolved; glyph_other].

Definition labels : list string :=
  ["<b>Severity:</b>"; "<b>Status:</b>"; "<b>Source:</b>"; "<b>Monitor:</b>";
   "<b>Current:</b>"; "<b>Threshold:</b>"; "<b>Time:</b>"].

(** A pattern whose occurrences in a message can be read off the literal
    parts of the lines: it begins with [<], has no line break, and cannot
    run from a literal part into a text or out of one. *)
Definition literal_pattern (p : string) : bool :=
  starts_with "<" p && negb (has_char "010" p)
  && forallb (fun g => negb (occurs p ("<b>" ++ g ++ " ")) && no_overlap p ("<b>" ++ g ++ " "))
       status_glyphs
  && negb (occurs p "</b>")
  && forallb (fun l => no_overlap p (l ++ " <code>")) labels
  && negb (occurs p "</code>")
  && no_overlap p link_open
  && negb (occurs p (dquote ++ ">")) && no_overlap p (dquote ++ ">")
  && negb (occurs p "</a>").

Section Typing.

Context {JN : JsNumber} {RT : JsRuntime}.

Definition is_str (v : json) : bool :=
  match v with
  | JStr _ => true
  | _ => false
  end.

(** [number | string | null]. *)
Definition is_value_or_null (v : json) : bool :=
  match v with
  | JNull | JNum _ | JStr _ => true
  | _ => false
  end.

(** The type [ReturnType<typeof normalize>] of a NormalizedAlert. *)
Definition well_typed (k : NormalizedAlert) : bool :=
  is_str (id k) && is_str (alertName k) && is_str (severity k)
  && is_str (status k) && is_str (source k) && is_str (timestamp k)
  && is_value_or_null (currentValue k) && is_value_or_null (threshold k)
  && is_str (actionText k) && is_str (actionUrl k).

(** The string a string-typed field holds. *)
Definition text_of (v : json) : string :=
  match v with
  | JStr s => s
  | _ => ""
  end.

(** [String(v)] for a number or a string. *)
Definition value_text (v : json) : string :=
  match v with
  | JNum n => num_to_string n
  | JStr s => s
  | _ => ""
  end.

Definition absent_or_string (x : option json) : bool :=
  match x with
  | None => true
  | Some v => is_str v
  end.

(** An event whose text fields, where present, are strings, as the type
    [KenerPayload] declares them. *)
Definition text_fields_typed (p : KenerPayload) : bool :=
  forallb (fun key => absent_or_string (lookup key p))
    ["id"; "alert_name"; "severity"; "status"; "source"; "timestamp"; "description"]
  && absent_or_string (get (nullish (lookup "details" p) (JObj [])) "metric")
  && absent_or_string (opt_get (first_action p) "text")
  && absent_or_string (opt_get (first_action p) "url").

(** The [details] object [normalize] reads. *)
Definition details_of (p : KenerPayload) : json :=
  nullish (lookup "details" p) (JObj []).

(** An event typed as [KenerPayload] declares it, in the fields the relay
    reads: the detail values are numbers or strings. *)
Definition payload_typed (p : KenerPayload) : bool :=
  text_fields_typed p
  && is_value_or_null (nullish (get (details_of p) "current_value") JNull)
  && is_value_or_null (nullish (get (details_of p) "threshold") JNull).

(** The responses and the outbound calls of a run of the handler. *)
Definition responses (trace : list Effect) : list Effect :=
  filter (fun e => match e with Respond _ _ => true | _ => false end) trace.

Definition outbound_calls (trace : list Effect) : list Effect :=
  filter (fun e => match e with Outbound _ _ => true | _ => false end) trace.

(** The value of an environment variable, the empty string when unset. *)
Definition env_value (env : Env) (key : string) : string :=
  match lookup key env with
  | Some v => v
  | None => ""
  end.

Definition positive_finite (n : Num) : Prop :=
  num_is_finite n = true /\ num_le_zero n = false.

(** The lines of the message of a well-typed alert, without the
    exceptions: every field goes through [escape]. *)
Definition typed_lines (k : NormalizedAlert) : list string :=
  ([head_line (statusEmoji k) (text_of (alertName k))]
   ++ (if nonempty (description k) then [""; escape (description k)] else [])
   ++ [""; severity_line (severityEmoji k) (text_of (severity k));
       code_line "<b>Status:</b>" (text_of (status k))]
   ++ (if nonempty (text_of (source k))
       then [code_line "<b>Source:</b>" (text_of (source k))] else [])
   ++ (if nonempty (metric k) then [code_line "<b>Monitor:</b>" (metric k)] else [])
   ++ (if not_null (currentValue k)
       then [code_line "<b>Current:</b>" (value_text (currentValue k))] else [])
   ++ (if not_null (threshold k)
       then [code_line "<b>Threshold:</b>" (value_text (threshold k))] else [])
   ++ (if nonempty (text_of (timestamp k))
       then [code_line "<b>Time:</b>" (text_of (formatTime (timestamp k)))] else [])
   ++ (if nonempty (text_of (actionUrl k))
       then [link_line (text_of (actionUrl k)) (text_of (actionText k))] else []))%list.

End Typing.

(** ** Sample inputs, on the runtime [Demo] *)

Module Sample.

Import Demo.

Definition now : string := "2024-01-01T00:00:00.000Z".
Definition later : string := "2024-01-01T00:00:01.000Z".

(** The event of the README. *)
Definition cpu_high : KenerPayload :=
  [("id", JStr "demo-1"); ("alert_name", JStr "CPU high");
   ("status", JStr "TRIGGERED"); ("severity", JStr "critical")].

(** An event that supplies empty strings. *)
Definition blank : KenerPayload :=
  [("alert_name", JStr ""); ("severity", JStr ""); ("status", JStr "");
   ("source", JStr ""); ("timestamp", JStr "");
   ("actions", JArr [JObj [("text", JStr ""); ("url", JStr "")]])].

(** An event with a timestamp of its own. *)
Definition stamped : KenerPayload :=
  [("alert_name", JStr "Disk full"); ("timestamp", JStr "2023-06-30T12:00:00.000Z")].

(** Events that are not typed as [KenerPayload] declares. *)
Definition numeric_id : KenerPayload := [("id", JNum (Int 5))].

Definition odd_description : KenerPayload :=
  [("description", JObj [("toString", JNum (Int 1))])].

(** An alert with every line, whose texts hold markup characters. *)
Definition full : NormalizedAlert :=
  {| id := JStr "a-1";
     alertName := JStr "<script>alert(1)</script>";
     severity := JStr "critical";
     status := JStr "TRIGGERED";
     source := JStr "Kener & co";
     timestamp := JStr "2024-01-01T00:00:00.000Z";
     description := "cpu > 90";
     metric := "cpu";
     currentValue := JNum (Int 97);
     threshold := JStr "90";
     actionText := JStr "Open";
     actionUrl := JStr "https://status.test/?a=1&b=2" |}.

(** An alert with none of the optional lines. *)
Definition bare : NormalizedAlert :=
  {| id := JStr "";
     alertName := JStr "Alert";
     severity := JStr "unknown";
     status := JStr "UNKNOWN";
     source := JStr "";
     timestamp := JStr "2024-01-01T00:00:00.000Z";
     description := "";
     metric := "";
     currentValue := JNull;
     threshold := JNull;
     actionText := JStr "Open";
     actionUrl := JStr "" |}.

Definition config : AppConfig :=
  {| port := Int 3000;
     kenerWebhookSecret := "secret";
     telegramBotToken := "123:abc";
     telegramChatId := "-100200" |}.

Definition request (token : string) : Request :=
  {| req_headers := [("content-type", "application/json"); ("x-kener-token", token)];
     req_body := cpu_high |}.

(** A network that answers every call with one response. *)
Definition replies (r : Response) : Fetch := fun _ _ => Ok r.

Definition accepted : Response :=
  {| resp_ok := true; resp_status := Int 200;
     resp_json := Ok (JObj [("ok", JBool true); ("result", JObj [])]) |}.

(** A body whose [ok] field is a string. *)
Definition ok_as_text : Response :=
  {| resp_ok := true; resp_status := Int 200;
     resp_json := Ok (JObj [("ok", JStr "no")]) |}.

Definition environment : Env :=
  [("PORT", " 8080 "); ("TELEGRAM_BOT_TOKEN", "123:abc"); ("TELEGRAM_CHAT_ID", "-100200")].

(** PORT set to the empty string. *)
Definition empty_port : Env :=
  [("PORT", ""); ("TELEGRAM_BOT_TOKEN", "123:abc"); ("TELEGRAM_CHAT_ID", "-100200")].

End Sample.

(** ** Vocabulary of the further properties *)

(** The text of an escaped string: [&amp;], [&lt;] and [&gt;] read back as
    [&], [<] and [>].  [skip] counts the characters of an entity still to
    pass over. *)
Fixpoint unescape_from (skip : nat) (s : string) : string :=
  match s with
  | "" => ""
  | String c s' =>
      match skip with
      | S n => unescape_from n s'
      | O =>
          if Ascii.eqb c "&" then
            if starts_with "amp;" s' then String "&" (unescape_from 4 s')
            else if starts_with "lt;" s' then String "<" (unescape_from 3 s')
            else if starts_with "gt;" s' then String ">" (unescape_from 3 s')
            else String c (unescape_from 0 s')
          else String c (unescape_from 0 s')
      end
  end.

Definition unescape (s : string) : string := unescape_from 0 s.

(** How often [c] occurs in [s]. *)
Fixpoint count_char (c : ascii) (s : string) : nat :=
  match s with
  | "" => 0
  | String x s' => (if Ascii.eqb x c then 1 else 0) + count_char c s'
  end.

(** A text without [&], [<] and [>]. *)
Definition plain (s : string) : bool :=
  negb (has_char "&" s) && negb (has_char "<" s) && negb (has_char ">" s).

Definition bool_to_nat (b : bool) : nat := if b then 1 else 0.

(** [r] returned. *)
Definition returned {A : Type} (r : result A) : bool :=
  match r with
  | Ok _ => true
  | Throw _ => false
  end.

Section FurtherVocabulary.

Context {JN : JsNumber} {RT : JsRuntime}.

(** A value [ToString] can print: no object with an own [toString] key,
    neither the value itself nor, through arrays, one of its items. *)
Fixpoint printable (v : json) : bool :=
  match v with
  | JArr items =>
      (fix all (l : list json) : bool :=
         match l with
         | [] => true
         | x :: rest => printable x && all rest
         end) items
  | JObj fields => negb (has_key "toString" fields)
  | _ => true
  end.

(** A field that is absent or printable. *)
Definition printable_field (x : option json) : bool :=
  match x with
  | Some v => printable v
  | None => true
  end.

(** [field] is what [x || d] gives: [x] when it is there and truthy, else
    [d]. *)
Definition keeps_or_defaults (x : option json) (d field : json) : Prop :=
  (truthy_opt x = true -> Some field = x)
  /\ (truthy_opt x = false -> field = d).

(** A value [escapeHtml] accepts: a string, or a falsy value. *)
Definition escapable (v : json) : bool := is_str v || negb (truthy v).

(** An alert [buildTelegramMessage] can render. *)
Definition renderable (k : NormalizedAlert) : bool :=
  printable (alertName k)
  && (escapable (severity k)
  && (escapable (status k)
  && (implb (truthy (source k)) (escapable (source k))
  && (implb (not_null (currentValue k)) (printable (currentValue k))
  && (implb (not_null (threshold k)) (printable (threshold k))
  && (implb (truthy (timestamp k)) (escapable (formatTime (timestamp k)))
  && implb (truthy (actionUrl k))
       (escapable (actionUrl k) && escapable (actionText k)))))))).

(** The number of elements of [lines] the fields of an alert account for. *)
Definition line_count (k : NormalizedAlert) : nat :=
  4 + (if nonempty (description k) then 2 else 0)
  + bool_to_nat (truthy (source k)) + bool_to_nat (nonempty (metric k))
  + bool_to_nat (not_null (currentValue k)) + bool_to_nat (not_null (threshold k))
  + bool_to_nat (truthy (timestamp k)) + bool_to_nat (truthy (actionUrl k)).

(** ** The events [normalize] turns into strings *)

(** A field that [x || d] turns into a string when [d] is one: a field
    that is absent, falsy or a string. *)
Definition string_or_falsy (x : option json) : bool :=
  match x with
  | Some v => is_str v || negb (truthy v)
  | None => true
  end.

(** Every text field of the alert is a string; the description and the
    metric are strings by their type. *)
Definition text_fields_are_strings (k : NormalizedAlert) : bool :=
  is_str (id k) && is_str (alertName k) && is_str (severity k)
  && is_str (status k) && is_str (source k) && is_str (timestamp k)
  && is_str (actionText k) && is_str (actionUrl k).

(** The events whose fields read with [||] are absent, falsy or strings,
    and whose description and metric [toString] can print. *)
Definition text_fields_coercible (p : KenerPayload) : bool :=
  forallb (fun key => string_or_falsy (lookup key p))
    ["id"; "alert_name"; "severity"; "status"; "source"; "timestamp"]
  && string_or_falsy (opt_get (first_action p) "text")
  && string_or_falsy (opt_get (first_action p) "url")
  && printable_field (lookup "description" p)
  && printable_field (get (details_of p) "metric").

(** A string that is not empty. *)
Definition nonempty_text (v : json) : bool :=
  match v with
  | JStr s => nonempty s
  | _ => false
  end.

(** The six fields that always have a default are non-empty strings. *)
Definition labelled (k : NormalizedAlert) : bool :=
  nonempty_text (alertName k) && nonempty_text (severity k)
  && nonempty_text (status k) && nonempty_text (source k)
  && nonempty_text (timestamp k) && nonempty_text (actionText k).

(** The inbound fields behind those six are absent, falsy or strings. *)
Definition labelled_fields_coercible (p : KenerPayload) : bool :=
  forallb (fun key => string_or_falsy (lookup key p))
    ["alert_name"; "severity"; "status"; "source"; "timestamp"]
  && string_or_falsy (opt_get (first_action p) "text").

(** The events that give a message over six non-empty strings: moreover
    the URL of the first action is absent, falsy or a string, and the
    description, the metric and the two detail values can be printed. *)
Definition rendering_coercible (p : KenerPayload) : bool :=
  labelled_fields_coercible p
  && string_or_falsy (opt_get (first_action p) "url")
  && printable_field (lookup "description" p)
  && printable_field (get (details_of p) "metric")
  && printable_field (get (details_of p) "current_value")
  && printable_field (get (details_of p) "threshold").

(** ** The dispatcher with its network calls on record *)

(** A computation that may call the network: the calls it made, in order,
    and what it settled to. *)
Definition Traced (A : Type) : Type := list Effect * result A.

Definition traced_bind {A B : Type} (m : Traced A) (k : A -> Traced B) : Traced B :=
  match m with
  | (calls, Ok a) => let (more, r) := k a in ((calls ++ more)%list, r)
  | (calls, Throw e) => (calls, Throw e)
  end.

(** [await fetch(url, init)]: the call is made, whatever it settles to. *)
Definition fetch_call (fetch : Fetch) (url : string) (init : FetchInit) : Traced Response :=
  ([Outbound url init], fetch url init).

(** [sendTelegram] (index.ts, lines 179-205) with each call of [fetch]
    recorded; reading the body of the response is no call. *)
Definition sendTelegram_traced (fetch : Fetch) (text : string) (cfg : AppConfig)
  : Traced unit :=
  traced_bind (fetch_call fetch (telegram_url cfg) (telegram_init text cfg))
    (fun resp =>
       let data :=
         match resp_json resp with
         | Ok d => d
         | Throw _ => JNull
         end in
       if negb (resp_ok resp) || negb (truthy_opt (opt_get (Some data) "ok"))
       then ([], Throw (sendTelegram_failed (resp_status resp) data))
       else ([], Ok tt)).

(** ** Startup (index.ts, lines 57-65) *)

(** What startup does to the process besides returning the configuration:
    [console.error("[config] " + message)] and [process.exitCode = code]. *)
Inductive StartupEffect : Type :=
| ConfigLog (tag : string) (e : exn)
| ExitCode (code : Z).

(** The configuration is loaded once; a failure is logged, sets the exit
    code and is thrown again. *)
Definition startup (env : Env) : list StartupEffect * result AppConfig :=
  match loadConfig env with
  | Ok cfg => ([], Ok cfg)
  | Throw err => ([ConfigLog "[config] " err; ExitCode 1], Throw err)
  end.

(** The three messages of [loadConfig]. *)
Definition invalid_port (env : Env) : exn :=
  Error ("Invalid PORT value " ++ dquote
         ++ trim (str_or (lookup "PORT" env) "3000") ++ dquote).

Definition port_accepted (env : Env) : bool :=
  let port := Number_of_string (trim (str_or (lookup "PORT" env) "3000")) in
  num_is_finite port && negb (num_le_zero port).

Definition is_blank (env : Env) (key : string) : bool :=
  negb (nonempty (trim (env_value env key))).

End FurtherVocabulary.

(** ** More sample inputs *)

Module MoreSamples.

Import Demo Sample.

(** An event with falsy values that are not strings. *)
Definition zeros : KenerPayload :=
  [("id", JNum (Int 0)); ("severity", JBool false); ("status", JNull);
   ("details", JObj [("metric", JStr ""); ("current_value", JNum (Int 0));
                     ("threshold", JStr "")])].

Definition zeros_alert : NormalizedAlert :=
  {| id := JStr ""; alertName := JStr "Alert"; severity := JStr "unknown";
     status := JStr "UNKNOWN"; source := JStr "Kener"; timestamp := JStr now;
     description := ""; metric := "";
     currentValue := JNum (Int 0); threshold := JStr "";
     actionText := JStr "Open"; actionUrl := JStr "" |}.

(** The alert of the README event. *)
Definition cpu_alert : NormalizedAlert :=
  {| id := JStr "demo-1"; alertName := JStr "CPU high"; severity := JStr "critical";
     status := JStr "TRIGGERED"; source := JStr "Kener"; timestamp := JStr now;
     description := ""; metric := "";
     currentValue := JNull; threshold := JNull;
     actionText := JStr "Open"; actionUrl := JStr "" |}.

(** An event whose severity is a number, and its alert. *)
Definition graded : KenerPayload := [("severity", JNum (Int 3))].

Definition graded_alert : NormalizedAlert :=
  {| id := JStr ""; alertName := JStr "Alert"; severity := JNum (Int 3);
     status := JStr "UNKNOWN"; source := JStr "Kener"; timestamp := JStr now;
     description := ""; metric := "";
     currentValue := JNull; threshold := JNull;
     actionText := JStr "Open"; actionUrl := JStr "" |}.

(** An alert without a timestamp. *)
Definition undated : NormalizedAlert :=
  {| id := JStr ""; alertName := JStr "Alert"; severity := JStr "warning";
     status := JStr "RESOLVED"; source := JStr "Kener"; timestamp := JStr "";
     description := "back to normal"; metric := "";
     currentValue := JNull; threshold := JNull;
     actionText := JStr "Open"; actionUrl := JStr "" |}.

(** A network that is down. *)
Definition unreachable : Fetch := fun _ _ => Throw NetworkError.

(** A request without headers. *)
Definition anonymous : Request := {| req_headers := []; req_body := cpu_high |}.

Definition graded_request : Request :=
  {| req_headers := [("x-kener-token", "secret")]; req_body := graded |}.

(** An environment whose secret has blanks around it. *)
Definition secured : Env :=
  [("KENER_WEBHOOK_SECRET", "  secret "); ("TELEGRAM_BOT_TOKEN", "123:abc");
   ("TELEGRAM_CHAT_ID", "-100200")].

(** Environments that do not load. *)
Definition bad_port : Env := [("PORT", "abc")].

Definition no_chat : Env := [("PORT", "8080"); ("TELEGRAM_BOT_TOKEN", "123:abc")].

(** Events with falsy fields and with a description that is no string. *)
Definition null_description : KenerPayload := [("description", JNull)].

Definition coerced : KenerPayload :=
  [("id", JNum (Int 0)); ("alert_name", JNull); ("severity", JBool false);
   ("description", JNum (Int 7));
   ("details", JObj [("metric", JArr [JStr "cpu"; JStr "load"])])].

Definition coerced_alert : NormalizedAlert :=
  {| id := JStr ""; alertName := JStr "Alert"; severity := JStr "unknown";
     status := JStr "UNKNOWN"; source := JStr "Kener"; timestamp := JStr now;
     description := "7"; metric := "cpu,load";
     currentValue := JNull; threshold := JNull;
     actionText := JStr "Open"; actionUrl := JStr "" |}.

(** An event whose alert name is the empty array, and its alert. *)
Definition unnamed : KenerPayload := [("alert_name", JArr [])].

Definition unnamed_alert : NormalizedAlert :=
  {| id := JStr ""; alertName := JArr []; severity := JStr "unknown";
     status := JStr "UNKNOWN"; source := JStr "Kener"; timestamp := JStr now;
     description := ""; metric := "";
     currentValue := JNull; threshold := JNull;
     actionText := JStr "Open"; actionUrl := JStr "" |}.

End MoreSamples.

(** * Properties *)

(** ** Results *)

Lemma Ok_inj {A : Type} (a b : A) : Ok a = Ok b -> a = b.
Proof. intro H. now injection H. Qed.

(** ** Strings *)

Lemma or_empty_id (s : string) : or_empty s = s.
Proof. destruct s; reflexivity. Qed.

Lemma append_empty_r (s : string) : s ++ "" = s.
Proof. induction s as [|c s IH]; simpl; [reflexivity | now rewrite IH]. Qed.

Lemma append_assoc (a b c : string) : (a ++ b) ++ c = a ++ (b ++ c).
Proof. induction a as [|x a IH]; simpl; [reflexivity | now rewrite IH]. Qed.

Lemma replace_all_app (c : ascii) (r a b : string) :
  replace_all c r (a ++ b) = replace_all c r a ++ replace_all c r b.
Proof.
  induction a as [|x a IH]; simpl; [reflexivity|].
  destruct (Ascii.eqb x c); rewrite IH; [now rewrite append_assoc | reflexivity].
Qed.

Lemma starts_with_refl_app (p rest : string) : starts_with p (p ++ rest) = true.
Proof.
  induction p as [|c p IH]; simpl; [reflexivity|].
  now rewrite Ascii.eqb_refl, IH.
Qed.

Lemma starts_with_empty (p : string) : starts_with p "" = negb (nonempty p).
Proof. destruct p; reflexivity. Qed.

(** ** The authenticator *)

Lemma bytes_equal_iff (a b : list byte) : bytes_equal a b = true <-> a = b.
Proof.
  revert b; induction a as [|x a IH]; intros [|y b]; simpl; split; intro H;
    try reflexivity; try discriminate.
  - apply andb_true_iff in H as [Hxy Hab].
    apply Byte.byte_dec_bl in Hxy. apply IH in Hab. now subst.
  - injection H as -> ->. apply andb_true_iff; split.
    + now apply Byte.byte_dec_lb.
    + now apply IH.
Qed.

Lemma Buffer_from_inj (a b : string) : Buffer_from a = Buffer_from b -> a = b.
Proof.
  unfold Buffer_from; intro H.
  rewrite <- (string_of_list_byte_of_string a), <- (string_of_list_byte_of_string b).
  now rewrite H.
Qed.

(** [timingSafeEq] never reaches the exception of [crypto.timingSafeEqual]:
    it is the byte comparison. *)
Lemma timingSafeEq_bytes (a b : string) :
  timingSafeEq a b = Ok (bytes_equal (Buffer_from a) (Buffer_from b)).
Proof.
  unfold timingSafeEq, crypto_timingSafeEqual. rewrite !or_empty_id.
  destruct (Nat.eqb (length (Buffer_from a)) (length (Buffer_from b))) eqn:E; simpl.
  - reflexivity.
  - f_equal. symmetry. apply not_true_is_false. intro H.
    apply bytes_equal_iff in H. rewrite H, Nat.eqb_refl in E. discriminate.
Qed.

Lemma timingSafeEq_true_iff (a b : string) : timingSafeEq a b = Ok true <-> a = b.
Proof.
  rewrite timingSafeEq_bytes. split.
  - intro H. injection H as H. apply bytes_equal_iff in H. now apply Buffer_from_inj.
  - intros ->. f_equal. now apply bytes_equal_iff.
Qed.

Lemma timingSafeEq_false_iff (a b : string) : timingSafeEq a b = Ok false <-> a <> b.
Proof.
  split.
  - intros H ->. assert (E : timingSafeEq b b = Ok true) by now apply timingSafeEq_true_iff.
    congruence.
  - intro N. rewrite timingSafeEq_bytes. f_equal. apply not_true_is_false. intro H.
    apply N, Buffer_from_inj. now apply bytes_equal_iff.
Qed.

(** C2. With no secret configured every token is accepted.  With a secret,
    a token of another byte length is refused, a token of the same byte
    length is accepted exactly when its bytes are those of the secret, and
    no pair of strings makes the check throw. *)
Theorem authorize_constant_time_compare (presentedToken configuredSecret : string) :
  (configuredSecret = "" -> authorize presentedToken configuredSecret = Ok true)
  /\ (configuredSecret <> "" ->
      length (Buffer_from presentedToken) <> length (Buffer_from configuredSecret) ->
      authorize presentedToken configuredSecret = Ok false)
  /\ (configuredSecret <> "" ->
      length (Buffer_from presentedToken) = length (Buffer_from configuredSecret) ->
      (authorize presentedToken configuredSecret = Ok true
       <-> Buffer_from presentedToken = Buffer_from configuredSecret))
  /\ (exists verdict, authorize presentedToken configuredSecret = Ok verdict)
  /\ authorize "wrong" "secret" = Ok false
  /\ authorize "secret" "secret" = Ok true
  /\ authorize "" "" = Ok true.
Proof.
  assert (E : configuredSecret <> "" ->
              authorize presentedToken configuredSecret
              = Ok (bytes_equal (Buffer_from presentedToken) (Buffer_from configuredSecret))).
  { intro N. unfold authorize. destruct configuredSecret; [congruence|].
    apply timingSafeEq_bytes. }
  repeat split.
  - intros ->. reflexivity.
  - intros N L. rewrite (E N). f_equal. apply not_true_is_false. intro H.
    apply bytes_equal_iff in H. now rewrite H in L.
  - rewrite (E H). intro T. injection T as T. now apply bytes_equal_iff.
  - rewrite (E H). intro T. f_equal. now apply bytes_equal_iff.
  - destruct configuredSecret as [|c s].
    + exists true. reflexivity.
    + eexists. apply E. discriminate.
Qed.

(** The theorem at the token ["wrong"] and the secret ["secret"], and at a
    token of the secret's length. *)
Lemma authorize_constant_time_compare_witness :
  authorize "wrong" "secret" = Ok false
  /\ (authorize "secret" "secret" = Ok true
      <-> Buffer_from "secret" = Buffer_from "secret").
Proof.
  split.
  - destruct (authorize_constant_time_compare "wrong" "secret") as (_ & H & _).
    apply H; [discriminate | vm_compute; lia].
  - destruct (authorize_constant_time_compare "secret" "secret") as (_ & _ & H & _).
    apply H; [discriminate | reflexivity].
Defined.

(** ** Escaping *)

Lemma escape_app (a b : string) : escape (a ++ b) = escape a ++ escape b.
Proof. unfold escape. now rewrite !replace_all_app. Qed.

Lemma escape_one (c : ascii) : escape (String c "") = escape_char c.
Proof.
  unfold escape, escape_char. simpl.
  destruct (Ascii.eqb c "&") eqn:E1; [reflexivity|]. simpl.
  destruct (Ascii.eqb c "<") eqn:E2; [reflexivity|]. simpl.
  destruct (Ascii.eqb c ">") eqn:E3; reflexivity.
Qed.

Lemma escape_cons (c : ascii) (s : string) :
  escape (String c s) = escape_char c ++ escape s.
Proof. change (String c s) with (String c "" ++ s). now rewrite escape_app, escape_one. Qed.

(** The three passes together rewrite each character on its own: the [&]
    of the entities written by the later passes are never escaped again,
    because the [&] pass runs first. *)
Lemma escape_expand (s : string) : escape s = expand escape_char s.
Proof.
  induction s as [|c s IH]; [reflexivity|].
  rewrite escape_cons, IH. reflexivity.
Qed.

Lemma scan_escape_char (c : ascii) (in_tag : bool) (rest : string) :
  scan in_tag (escape_char c ++ rest) = scan in_tag rest.
Proof.
  unfold escape_char.
  destruct (Ascii.eqb c "&") eqn:E1; [reflexivity|].
  destruct (Ascii.eqb c "<") eqn:E2; [reflexivity|].
  destruct (Ascii.eqb c ">") eqn:E3; [reflexivity|].
  simpl. now rewrite E1, E2, E3.
Qed.

(** A scan runs through an escaped text without leaving its state. *)
Lemma scan_escape (t : string) (in_tag : bool) (rest : string) :
  scan in_tag (escape t ++ rest) = scan in_tag rest.
Proof.
  induction t as [|c t IH]; [reflexivity|].
  now rewrite escape_cons, append_assoc, scan_escape_char.
Qed.

Lemma scan_escape_end (t : string) (in_tag : bool) : scan in_tag (escape t) = Some in_tag.
Proof. rewrite <- (append_empty_r (escape t)). now rewrite scan_escape. Qed.

(** A text without [&], [<] and [>] is its own escaped form. *)
Lemma scan_plain (t : string) (in_tag : bool) (rest : string) :
  escape t = t -> scan in_tag (t ++ rest) = scan in_tag rest.
Proof. intros E. rewrite <- E. apply scan_escape. Qed.

Lemma scan_join (lines : list string) :
  Forall neutral lines -> scan false (String.concat newline lines) = Some false.
Proof.
  induction 1 as [|l ls Hl Hls IH]; [reflexivity|].
  destruct ls as [|l' ls'].
  - simpl. rewrite <- (append_empty_r l). now rewrite Hl.
  - change (String.concat newline (l :: l' :: ls'))
      with (l ++ newline ++ String.concat newline (l' :: ls')).
    rewrite Hl. exact IH.
Qed.

(** ** Occurrences of a pattern in a message *)

Lemma starts_with_app_l (p a b : string) :
  starts_with p a = true -> starts_with p (a ++ b) = true.
Proof.
  revert a; induction p as [|c p IH]; intros [|x a]; simpl; try easy.
  intro H. apply andb_true_iff in H as [H1 H2]. now rewrite H1, IH.
Qed.

(** If [p] begins [a ++ rest], then [p] begins [a] or [a] begins [p]. *)
Lemma starts_with_app_cases (p a rest : string) :
  starts_with p (a ++ rest) = true ->
  starts_with p a = true \/ starts_with a p = true.
Proof.
  revert a; induction p as [|c p IH]; intros a H; [now left|].
  destruct a as [|x a]; [now right|].
  simpl in *. apply andb_true_iff in H as [H1 H2].
  apply Ascii.eqb_eq in H1; subst x. rewrite Ascii.eqb_refl. simpl.
  now apply IH.
Qed.

Lemma occurs_here (p rest : string) : occurs p (p ++ rest) = true.
Proof.
  destruct p as [|c p]; [destruct rest; reflexivity|].
  change (String c p ++ rest) with (String c (p ++ rest)).
  cbn [occurs]. change (String c (p ++ rest)) with (String c p ++ rest).
  now rewrite starts_with_refl_app.
Qed.

Lemma occurs_app_r (p a b : string) : occurs p b = true -> occurs p (a ++ b) = true.
Proof.
  intro H. induction a as [|x a IH]; [exact H|].
  simpl. rewrite IH. apply orb_true_r.
Qed.

Lemma occurs_app_l (p a b : string) : occurs p a = true -> occurs p (a ++ b) = true.
Proof.
  induction a as [|x a IH]; intro H.
  - simpl in H. rewrite orb_false_r in H. destruct p; [|discriminate].
    destruct b; reflexivity.
  - simpl in H. apply orb_true_iff in H as [H|H].
    + change (String x a ++ b) with (String x (a ++ b)). cbn [occurs].
      change (String x (a ++ b)) with (String x a ++ b).
      now rewrite (starts_with_app_l _ _ _ H).
    + simpl. rewrite (IH H). apply orb_true_r.
Qed.

Lemma occurs_concat_in (p sep l : string) (ls : list string) :
  In l ls -> occurs p l = true -> occurs p (String.concat sep ls) = true.
Proof.
  intros I H. induction ls as [|x ls IH]; [destruct I|].
  destruct ls as [|y ls'].
  - destruct I as [->|[]]. exact H.
  - change (String.concat sep (x :: y :: ls'))
      with (x ++ sep ++ String.concat sep (y :: ls')).
    destruct I as [->|I].
    + now apply occurs_app_l.
    + apply occurs_app_r, occurs_app_r. now apply IH.
Qed.

(** An occurrence cannot start in a literal [m] that neither contains [p]
    nor ends with a beginning of [p]. *)
Lemma occurs_skip_literal (p m rest : string) :
  occurs p m = false -> no_overlap p m = true ->
  occurs p (m ++ rest) = occurs p rest.
Proof.
  induction m as [|c m IH]; intros H1 H2; [reflexivity|].
  simpl in H1. apply orb_false_iff in H1 as [S1 O1].
  cbn [no_overlap] in H2. apply andb_true_iff in H2 as [S2 N2].
  apply negb_true_iff in S2.
  change (String c m ++ rest) with (String c (m ++ rest)). cbn [occurs].
  change (String c (m ++ rest)) with (String c m ++ rest).
  rewrite (IH O1 N2).
  destruct (starts_with p (String c m ++ rest)) eqn:E; [|reflexivity].
  apply starts_with_app_cases in E as [E|E]; congruence.
Qed.

Lemma has_char_escape (c : ascii) (t : string) :
  (Ascii.eqb c "<" || Ascii.eqb c ">")%bool = true -> has_char c (escape t) = false.
Proof.
  intro H. induction t as [|x t IH]; [reflexivity|].
  rewrite escape_cons. unfold escape_char.
  apply orb_true_iff in H as [H|H]; apply Ascii.eqb_eq in H; subst c;
    destruct (Ascii.eqb x "&") eqn:E1; try exact IH;
    destruct (Ascii.eqb x "<") eqn:E2; try exact IH;
    destruct (Ascii.eqb x ">") eqn:E3; try exact IH;
    simpl; rewrite ?E2, ?E3; exact IH.
Qed.

(** An occurrence of a pattern that begins with [<] cannot start in an
    escaped text. *)
Lemma occurs_skip_escape (p t rest : string) :
  starts_with "<" p = true -> occurs p (escape t ++ rest) = occurs p rest.
Proof.
  intro H. destruct p as [|c p]; [discriminate|].
  cbn [starts_with] in H. rewrite andb_true_r in H. apply Ascii.eqb_eq in H. subst c.
  pose proof (has_char_escape "<" t eq_refl) as F.
  induction (escape t) as [|x e IH]; [reflexivity|].
  simpl in F. apply orb_false_iff in F as [F1 F2].
  change (String x e ++ rest) with (String x (e ++ rest)). cbn [occurs starts_with].
  rewrite Ascii.eqb_sym, F1. simpl. now apply IH.
Qed.

Lemma starts_with_before_newline (p a b : string) :
  has_char "010" p = false ->
  starts_with p (a ++ newline ++ b) = starts_with p a.
Proof.
  revert a; induction p as [|c p IH]; intros a H; [reflexivity|].
  simpl in H. apply orb_false_iff in H as [H1 H2].
  destruct a as [|x a].
  - simpl. now rewrite H1.
  - change (String x a ++ newline ++ b) with (String x (a ++ newline ++ b)).
    cbn [starts_with]. now rewrite IH.
Qed.

(** A pattern without a line break occurs in the joined lines exactly when
    it occurs in one of them. *)
Lemma occurs_join (p : string) (lines : list string) :
  nonempty p = true -> has_char "010" p = false ->
  occurs p (String.concat newline lines) = existsb (occurs p) lines.
Proof.
  intros NE NL.
  assert (E0 : occurs p "" = false).
  { destruct p; [discriminate | reflexivity]. }
  assert (A : forall a b, occurs p (a ++ newline ++ b) = (occurs p a || occurs p b)%bool).
  { intros a b. induction a as [|x a IH].
    - rewrite E0. destruct p as [|c p]; [discriminate|].
      simpl in NL. apply orb_false_iff in NL as [N1 _].
      simpl. now rewrite N1.
    - change (String x a ++ newline ++ b) with (String x (a ++ newline ++ b)).
      cbn [occurs]. rewrite IH.
      change (String x (a ++ newline ++ b)) with (String x a ++ newline ++ b).
      rewrite (starts_with_before_newline _ _ _ NL). now rewrite orb_assoc. }
  induction lines as [|l ls IH]; [exact E0|].
  destruct ls as [|l' ls'].
  - simpl. now rewrite orb_false_r.
  - change (String.concat newline (l :: l' :: ls'))
      with (l ++ newline ++ String.concat newline (l' :: ls')).
    rewrite A, IH. reflexivity.
Qed.

(** ** The formatter on well-typed alerts *)

Section Formatter.

Context {JN : JsNumber} {RT : JsRuntime}.

Lemma escapeHtml_str (x : string) : escapeHtml (JStr x) = Ok (escape x).
Proof. destruct x; reflexivity. Qed.

Lemma truthy_str (x : string) : truthy (JStr x) = nonempty x.
Proof. destruct x; reflexivity. Qed.

Lemma when_Ok (c : bool) (l : list string) : when c (Ok l) = Ok (if c then l else []).
Proof. destruct c; reflexivity. Qed.

(** On a string [formatTime] returns a string: the formatted time, or the
    string itself when formatting throws. *)
Lemma formatTime_str (s : string) :
  formatTime (JStr s) = JStr (text_of (formatTime (JStr s))).
Proof.
  unfold formatTime, new_Date. cbn [bind].
  destruct (toLocaleString (Date_parse s)); reflexivity.
Qed.

Lemma ToString_value (v : json) :
  is_value_or_null v = true -> not_null v = true -> ToString v = Ok (value_text v).
Proof. destruct v; try discriminate; reflexivity. Qed.

Lemma message_lines_typed (k : NormalizedAlert) :
  well_typed k = true -> message_lines k = Ok (typed_lines k).
Proof.
  destruct k as [i an sev st src ts desc met cur thr atx aurl].
  unfold well_typed; cbn [id alertName severity status source timestamp
    currentValue threshold actionText actionUrl].
  intro T. repeat (apply andb_true_iff in T as [T ?]).
  destruct i; try discriminate. destruct an; try discriminate.
  destruct sev; try discriminate. destruct st; try discriminate.
  destruct src; try discriminate. destruct ts; try discriminate.
  destruct atx; try discriminate. destruct aurl; try discriminate.
  unfold message_lines, typed_lines.
  cbn [id alertName severity status source timestamp description metric
    currentValue threshold actionText actionUrl text_of ToString].
  cbn [bind]. rewrite (formatTime_str s4).
  rewrite !escapeHtml_str, !truthy_str. cbn [bind].
  assert (V : forall v label, is_value_or_null v = true ->
            when (not_null v)
              (x <- ToString v ;; s <- escapeHtml (JStr x) ;;
               Ok [label ++ s ++ "</code>"])
            = Ok (if not_null v
                  then [label ++ escape (value_text v) ++ "</code>"]
                  else [])).
  { intros v label Hv. destruct (not_null v) eqn:N; [|reflexivity].
    cbn [when]. rewrite (ToString_value v Hv N). cbn [bind].
    now rewrite escapeHtml_str. }
  rewrite !V by assumption.
  rewrite !when_Ok. cbn [bind]. reflexivity.
Qed.

End Formatter.

(** ** The markup of a rendered message *)

Lemma starts_any_app (l : list string) (s r : string) :
  starts_any l s = true -> starts_any l (s ++ r) = true.
Proof.
  unfold starts_any. intro H. apply existsb_exists in H as (t & I & S).
  apply existsb_exists. exists t. split; [exact I | now apply starts_with_app_l].
Qed.

(** A scan that runs through [m] runs through it in front of any text. *)
Lemma scan_literal (m rest : string) (st st' : bool) :
  scan st m = Some st' -> scan st (m ++ rest) = scan st' rest.
Proof.
  revert st; induction m as [|c m IH]; intros st H.
  - injection H as ->. reflexivity.
  - change (String c m ++ rest) with (String c (m ++ rest)).
    cbn [scan] in *.
    destruct (Ascii.eqb c "<").
    + destruct (negb st && starts_any formatter_tags (String c m))%bool eqn:E;
        [|discriminate].
      apply andb_true_iff in E as [E1 E2].
      change (String c (m ++ rest)) with (String c m ++ rest).
      rewrite E1, (starts_any_app _ _ rest E2). simpl. now apply IH.
    + destruct (Ascii.eqb c ">").
      * destruct st; [now apply IH | discriminate].
      * destruct (Ascii.eqb c "&").
        -- destruct (starts_any entities (String c m)) eqn:E; [|discriminate].
           change (String c (m ++ rest)) with (String c m ++ rest).
           rewrite (starts_any_app _ _ rest E). now apply IH.
        -- now apply IH.
Qed.

Section Markup.

Context {JN : JsNumber} {RT : JsRuntime}.

Lemma escape_statusEmoji (k : NormalizedAlert) : escape (statusEmoji k) = statusEmoji k.
Proof.
  unfold statusEmoji.
  destruct (is_string (status k) "TRIGGERED"); [reflexivity|].
  destruct (is_string (status k) "RESOLVED"); reflexivity.
Qed.

Lemma escape_severityEmoji (k : NormalizedAlert) : escape (severityEmoji k) = severityEmoji k.
Proof.
  unfold severityEmoji.
  destruct (is_string (severity k) "critical"); [reflexivity|].
  destruct (is_string (severity k) "warning"); reflexivity.
Qed.

Ltac scan_steps :=
  repeat first [ rewrite scan_escape
               | erewrite scan_literal by reflexivity ];
  try reflexivity.

Ltac scan_through :=
  unfold neutral; intros; rewrite ?append_assoc; scan_steps.

Lemma typed_lines_neutral (k : NormalizedAlert) : Forall neutral (typed_lines k).
Proof.
  unfold typed_lines, head_line, severity_line, code_line, link_line, link_open.
  repeat match goal with
         | |- Forall _ (_ ++ _)%list => apply Forall_app; split
         | |- Forall _ (if ?c then _ else _) => destruct c
         | |- Forall _ (_ :: _) => constructor
         | |- Forall _ [] => constructor
         end; try solve [scan_through].
  - unfold neutral; intros. rewrite <- (escape_severityEmoji k), ?append_assoc.
    rewrite scan_escape. scan_through.
  - unfold neutral; intros. rewrite ?append_assoc.
    rewrite (scan_literal newline _ false false eq_refl).
    rewrite <- (append_assoc "<a href=" dquote).
    scan_steps.
Qed.

(** What [escapeHtml] returns is an escaped text. *)
Lemma escapeHtml_Ok (v : json) (s : string) :
  escapeHtml v = Ok s -> exists x, s = escape x.
Proof.
  unfold escapeHtml. destruct (or_default (Some v) (JStr "")); try discriminate.
  intro H. apply Ok_inj in H. now exists s0.
Qed.

Lemma when_inv (c : bool) (pushed : result (list string)) (l : list string) :
  when c pushed = Ok l -> pushed = Ok l \/ l = [].
Proof. destruct c; cbn [when]; intro H; [now left | right; now apply Ok_inj in H]. Qed.

Ltac invert_bind H :=
  match type of H with
  | context [bind ?r _] =>
      let E := fresh "E" in
      destruct r eqn:E; cbn [bind] in H; [|discriminate H]
  end.

Ltac escaped :=
  repeat match goal with
         | E : escapeHtml _ = Ok ?s |- _ =>
             let x := fresh "x" in
             apply escapeHtml_Ok in E; destruct E as [x ->]
         end.

(** Whatever the alert, the lines that are built are neutral. *)
Lemma message_lines_neutral (k : NormalizedAlert) (lines : list string) :
  message_lines k = Ok lines -> Forall neutral lines.
Proof.
  unfold message_lines. intro H.
  do 11 invert_bind H. cbv zeta in H. apply Ok_inj in H. subst lines.
  repeat match goal with
         | E : when _ _ = Ok _ |- _ =>
             apply when_inv in E; destruct E as [E| ->];
             [repeat invert_bind E; apply Ok_inj in E; subst|]
         end;
    escaped;
    repeat match goal with
           | |- Forall _ (_ ++ _)%list => apply Forall_app; split
           | |- Forall _ (_ :: _) => constructor
           | |- Forall _ [] => constructor
           end;
    try solve [scan_through].
  all: try (unfold neutral; intros; rewrite <- (escape_severityEmoji k), ?append_assoc;
            rewrite scan_escape; scan_through).
  all: unfold neutral; intros; rewrite ?append_assoc;
    rewrite (scan_literal newline _ false false eq_refl);
    rewrite <- (append_assoc "<a href=" dquote); scan_steps.
Qed.

(** C1. [escapeHtml] rewrites [&], then [<], then [>], which rewrites each
    character on its own.  The message of a well-typed alert is made of the
    lines in which every field stands escaped, and each of its [<], [>] and
    [&] belongs to a tag the formatter wrote or to an entity; the latter
    holds of every message that is rendered, whatever the alert. *)
Theorem rendered_message_is_escaped :
  (forall s,
      escape s = replace_all ">" "&gt;" (replace_all "<" "&lt;" (replace_all "&" "&amp;" s))
      /\ escape s = expand escape_char s
      /\ forall in_tag, scan in_tag (escape s) = Some in_tag)
  /\ (forall k, well_typed k = true ->
      exists msg,
        buildTelegramMessage k = Ok msg
        /\ msg = String.concat newline (typed_lines k)
        /\ only_formatter_markup msg)
  /\ (forall k msg, buildTelegramMessage k = Ok msg -> only_formatter_markup msg).
Proof.
  split; [|split].
  - intro s. split; [reflexivity|]. split; [apply escape_expand|].
    intro in_tag. apply scan_escape_end.
  - intros k T. exists (String.concat newline (typed_lines k)).
    split; [|split; [reflexivity|]].
    + unfold buildTelegramMessage. now rewrite (message_lines_typed k T).
    + apply scan_join, typed_lines_neutral.
  - intros k msg B. unfold buildTelegramMessage in B.
    destruct (message_lines k) as [lines|] eqn:L; [|discriminate].
    cbn [bind] in B. apply Ok_inj in B. subst msg.
    apply scan_join, (message_lines_neutral k lines L).
Qed.

End Markup.

(** ** Which lines a message has *)

Section Lines.

Context {JN : JsNumber} {RT : JsRuntime}.

Lemma existsb_if {A : Type} (f : A -> bool) (c : bool) (l : list A) :
  existsb f (if c then l else []) = (c && existsb f l)%bool.
Proof. destruct c; reflexivity. Qed.

Lemma occurs_escaped (p t : string) : starts_with "<" p = true -> occurs p (escape t) = false.
Proof.
  intro H. rewrite <- (append_empty_r (escape t)), occurs_skip_escape by exact H.
  destruct p; [discriminate | reflexivity].
Qed.

Lemma statusEmoji_cases (k : NormalizedAlert) : In (statusEmoji k) status_glyphs.
Proof.
  unfold statusEmoji, status_glyphs.
  destruct (is_string (status k) "TRIGGERED"); [now left|].
  destruct (is_string (status k) "RESOLVED"); [right; now left | right; right; now left].
Qed.

Lemma literal_pattern_parts (p : string) :
  literal_pattern p = true ->
  starts_with "<" p = true /\ has_char "010" p = false
  /\ (forall g, In g status_glyphs ->
        occurs p ("<b>" ++ g ++ " ") = false /\ no_overlap p ("<b>" ++ g ++ " ") = true)
  /\ occurs p "</b>" = false
  /\ (forall l, In l labels -> no_overlap p (l ++ " <code>") = true)
  /\ occurs p "</code>" = false
  /\ no_overlap p link_open = true
  /\ occurs p (dquote ++ ">") = false /\ no_overlap p (dquote ++ ">") = true
  /\ occurs p "</a>" = false.
Proof.
  unfold literal_pattern. intro H.
  repeat (apply andb_true_iff in H as [H ?]).
  repeat match goal with
         | X : negb _ = true |- _ => apply negb_true_iff in X
         end.
  repeat split; try assumption.
  - match goal with X : forallb _ status_glyphs = true, I : In _ status_glyphs |- _ =>
      rewrite forallb_forall in X; specialize (X _ I);
      apply andb_true_iff in X as [X _]; now apply negb_true_iff in X end.
  - match goal with X : forallb _ status_glyphs = true, I : In _ status_glyphs |- _ =>
      rewrite forallb_forall in X; specialize (X _ I);
      now apply andb_true_iff in X as [_ X] end.
  - match goal with X : forallb _ labels = true |- _ =>
      rewrite forallb_forall in X; now apply X end.
Qed.

Section Pattern.

Variable p : string.
Hypothesis literal : literal_pattern p = true.

Lemma occurs_head_line (k : NormalizedAlert) (name : string) :
  occurs p (head_line (statusEmoji k) name) = false.
Proof.
  destruct (literal_pattern_parts p literal) as (L & _ & G & B & _).
  destruct (G _ (statusEmoji_cases k)) as [G1 G2].
  unfold head_line.
  rewrite <- (append_assoc (statusEmoji k) " " name), escape_app.
  replace (escape (statusEmoji k ++ " ")) with (statusEmoji k ++ " ")
    by (rewrite escape_app, escape_statusEmoji; reflexivity).
  rewrite append_assoc, <- (append_assoc "<b>" (statusEmoji k ++ " ")).
  rewrite occurs_skip_literal by assumption.
  rewrite occurs_skip_escape by assumption. exact B.
Qed.

Lemma occurs_code_line (label value : string) :
  In label labels ->
  occurs p (code_line label value) = occurs p (label ++ " <code>").
Proof.
  intro I.
  destruct (literal_pattern_parts p literal) as (L & _ & _ & _ & N & C & _).
  unfold code_line. rewrite <- (append_assoc label " <code>").
  destruct (occurs p (label ++ " <code>")) eqn:E.
  - now apply occurs_app_l.
  - rewrite occurs_skip_literal by auto.
    rewrite occurs_skip_escape by assumption. exact C.
Qed.

Lemma occurs_severity_line (k : NormalizedAlert) (value : string) :
  occurs p (severity_line (severityEmoji k) value)
  = occurs p ("<b>Severity:</b>" ++ " <code>").
Proof.
  destruct (literal_pattern_parts p literal) as (L & _).
  unfold severity_line. rewrite <- (append_assoc (severityEmoji k) " ").
  replace (severityEmoji k ++ " ") with (escape (severityEmoji k ++ " "))
    by (rewrite escape_app, escape_severityEmoji; reflexivity).
  rewrite occurs_skip_escape by assumption.
  apply occurs_code_line. now left.
Qed.

Lemma occurs_link_line (target caption : string) :
  occurs p (link_line target caption) = occurs p link_open.
Proof.
  destruct (literal_pattern_parts p literal)
    as (L & _ & _ & _ & _ & _ & N & Q1 & Q2 & A).
  unfold link_line.
  destruct (occurs p link_open) eqn:E.
  - now apply occurs_app_l.
  - rewrite occurs_skip_literal by assumption.
    rewrite occurs_skip_escape by assumption.
    rewrite <- (append_assoc dquote ">").
    rewrite occurs_skip_literal by assumption.
    rewrite occurs_skip_escape by assumption. exact A.
Qed.

(** Where a literal pattern occurs in the message of an alert. *)
Lemma occurs_typed_lines (k : NormalizedAlert) :
  occurs p (String.concat newline (typed_lines k))
  = (occurs p ("<b>Severity:</b>" ++ " <code>")
     || occurs p ("<b>Status:</b>" ++ " <code>")
     || nonempty (text_of (source k)) && occurs p ("<b>Source:</b>" ++ " <code>")
     || nonempty (metric k) && occurs p ("<b>Monitor:</b>" ++ " <code>")
     || not_null (currentValue k) && occurs p ("<b>Current:</b>" ++ " <code>")
     || not_null (threshold k) && occurs p ("<b>Threshold:</b>" ++ " <code>")
     || nonempty (text_of (timestamp k)) && occurs p ("<b>Time:</b>" ++ " <code>")
     || nonempty (text_of (actionUrl k)) && occurs p link_open)%bool.
Proof.
  destruct (literal_pattern_parts p literal) as (L & NL & _).
  assert (NE : nonempty p = true) by (destruct p; [discriminate | reflexivity]).
  assert (E0 : occurs p "" = false) by (destruct p; [discriminate | reflexivity]).
  rewrite occurs_join by assumption.
  unfold typed_lines. rewrite !existsb_app, !existsb_if. cbn [existsb].
  rewrite occurs_head_line, occurs_severity_line, occurs_link_line.
  rewrite !occurs_code_line by (unfold labels; simpl; tauto).
  rewrite occurs_escaped by assumption. rewrite E0.
  rewrite !orb_false_r, !andb_false_r, !orb_false_l, !orb_assoc.
  reflexivity.
Qed.

End Pattern.

Lemma occurs_refl (s : string) : occurs s s = true.
Proof. rewrite <- (append_empty_r s) at 2. apply occurs_here. Qed.

Lemma occurs_line (line : string) (lines : list string) :
  In line lines -> occurs line (String.concat newline lines) = true.
Proof. intro I. apply (occurs_concat_in _ _ _ _ I), occurs_refl. Qed.

Ltac evaluate_occurs :=
  repeat match goal with
         | |- context [occurs ?p ?l] =>
             let b := eval vm_compute in (occurs p l) in
             change (occurs p l) with b
         end;
  rewrite ?andb_false_r, ?andb_true_r, ?orb_false_r, ?orb_false_l.

Ltac read_off_lines :=
  rewrite occurs_typed_lines by (vm_compute; reflexivity);
  evaluate_occurs; reflexivity.

Ltac line_present :=
  let C := fresh "C" in
  intro C; apply occurs_line; unfold typed_lines; rewrite C;
  rewrite !in_app_iff; simpl; tauto.

(** C8. In the message of a well-typed alert the Source, Monitor, Current
    and Threshold labels occur exactly when the source and the metric are
    non-empty and the current value and the threshold are not null, and
    the link exactly when the action URL is non-empty; a line that is there
    carries its value, printed with [String] and escaped. *)
Theorem conditional_lines (k : NormalizedAlert) :
  well_typed k = true ->
  exists msg,
    buildTelegramMessage k = Ok msg
    /\ occurs "<b>Source:</b>" msg = nonempty (text_of (source k))
    /\ occurs "<b>Monitor:</b>" msg = nonempty (metric k)
    /\ occurs "<b>Current:</b>" msg = not_null (currentValue k)
    /\ occurs "<b>Threshold:</b>" msg = not_null (threshold k)
    /\ occurs "<a href=" msg = nonempty (text_of (actionUrl k))
    /\ (nonempty (text_of (source k)) = true ->
        occurs (code_line "<b>Source:</b>" (text_of (source k))) msg = true)
    /\ (nonempty (metric k) = true ->
        occurs (code_line "<b>Monitor:</b>" (metric k)) msg = true)
    /\ (not_null (currentValue k) = true ->
        ToString (currentValue k) = Ok (value_text (currentValue k))
        /\ occurs (code_line "<b>Current:</b>" (value_text (currentValue k))) msg = true)
    /\ (not_null (threshold k) = true ->
        ToString (threshold k) = Ok (value_text (threshold k))
        /\ occurs (code_line "<b>Threshold:</b>" (value_text (threshold k))) msg = true)
    /\ (nonempty (text_of (actionUrl k)) = true ->
        occurs (link_line (text_of (actionUrl k)) (text_of (actionText k))) msg = true).
Proof.
  intro T. exists (String.concat newline (typed_lines k)).
  split. { unfold buildTelegramMessage. now rewrite (message_lines_typed k T). }
  assert (Vc : is_value_or_null (currentValue k) = true /\ is_value_or_null (threshold k) = true).
  { unfold well_typed in T. repeat (apply andb_true_iff in T as [T ?]). now split. }
  destruct Vc as [Vc Vt].
  split; [read_off_lines|]. split; [read_off_lines|]. split; [read_off_lines|].
  split; [read_off_lines|]. split; [read_off_lines|].
  split; [line_present|]. split; [line_present|].
  split. { intro C. split; [now apply ToString_value | revert C; line_present]. }
  split. { intro C. split; [now apply ToString_value | revert C; line_present]. }
  line_present.
Qed.

End Lines.

(** ** The normalizer *)

Section Normalizer.

Context {JN : JsNumber} {RT : JsRuntime}.

Lemma or_default_truthy (x : option json) (d : json) :
  truthy d = true -> truthy (or_default x d) = true.
Proof.
  intro D. destruct x as [v|]; [|exact D].
  unfold or_default. destruct (truthy v) eqn:E; assumption.
Qed.

Lemma or_default_absent (x : option json) (d : json) :
  truthy_opt x = false -> or_default x d = d.
Proof. destruct x as [v|]; [|reflexivity]. simpl. now intros ->. Qed.

Lemma or_default_present (x : option json) (d : json) :
  truthy_opt x = true -> Some (or_default x d) = x.
Proof. destruct x as [v|]; [|discriminate]. simpl. now intros ->. Qed.

Lemma or_default_absent_or_present_same (x : option json) (d1 d2 : json) :
  truthy_opt x = true -> or_default x d2 = or_default x d1.
Proof. destruct x as [v|]; [|discriminate]. simpl. now intros ->. Qed.

Lemma or_default_string (x : option json) (d : string) :
  absent_or_string x = true -> is_str (or_default x (JStr d)) = true.
Proof.
  destruct x as [v|]; [|reflexivity]. simpl. intro H.
  destruct (truthy v); [exact H | reflexivity].
Qed.

Lemma call_toString_string (x : option json) :
  absent_or_string x = true ->
  call_toString (or_default x (JStr "")) = Ok (text_of (or_default x (JStr ""))).
Proof.
  intro H. pose proof (or_default_string x "" H) as S.
  destruct (or_default x (JStr "")); try discriminate. reflexivity.
Qed.

(** The alert [normalize] builds when neither conversion throws. *)
Lemma normalize_Ok (now : string) (p : KenerPayload) (k : NormalizedAlert) :
  normalize now p = Ok k ->
  id k = or_default (lookup "id" p) (JStr "")
  /\ alertName k = or_default (lookup "alert_name" p) (JStr "Alert")
  /\ severity k = or_default (lookup "severity" p) (JStr "unknown")
  /\ status k = or_default (lookup "status" p) (JStr "UNKNOWN")
  /\ source k = or_default (lookup "source" p) (JStr "Kener")
  /\ timestamp k = or_default (lookup "timestamp" p) (JStr now)
  /\ call_toString (or_default (lookup "description" p) (JStr "")) = Ok (description k)
  /\ call_toString (or_default (get (details_of p) "metric") (JStr "")) = Ok (metric k)
  /\ currentValue k = nullish (get (details_of p) "current_value") JNull
  /\ threshold k = nullish (get (details_of p) "threshold") JNull
  /\ actionText k = or_default (opt_get (first_action p) "text") (JStr "Open")
  /\ actionUrl k = or_default (opt_get (first_action p) "url") (JStr "").
Proof.
  unfold normalize, details_of. intro H.
  destruct (call_toString (or_default (lookup "description" p) (JStr ""))) as [d|];
    [|discriminate].
  destruct (call_toString (or_default (get (nullish (lookup "details" p) (JObj [])) "metric")
                             (JStr ""))) as [m|]; [|discriminate].
  cbn [bind] in H. injection H as <-. cbn. repeat split; reflexivity.
Qed.

Lemma text_fields_typed_parts (p : KenerPayload) :
  text_fields_typed p = true ->
  (forall key, In key ["id"; "alert_name"; "severity"; "status"; "source";
                       "timestamp"; "description"] ->
               absent_or_string (lookup key p) = true)
  /\ absent_or_string (get (details_of p) "metric") = true
  /\ absent_or_string (opt_get (first_action p) "text") = true
  /\ absent_or_string (opt_get (first_action p) "url") = true.
Proof.
  unfold text_fields_typed. intro H.
  do 3 (apply andb_true_iff in H as [H ?]).
  rewrite forallb_forall in H. repeat split; assumption.
Qed.

(** On an event with typed text fields [normalize] returns, and every text
    field of the alert is a string. *)
Lemma normalize_typed (now : string) (p : KenerPayload) :
  text_fields_typed p = true ->
  exists k,
    normalize now p = Ok k
    /\ is_str (id k) = true /\ is_str (alertName k) = true
    /\ is_str (severity k) = true /\ is_str (status k) = true
    /\ is_str (source k) = true /\ is_str (timestamp k) = true
    /\ is_str (actionText k) = true /\ is_str (actionUrl k) = true.
Proof.
  intro T. destruct (text_fields_typed_parts p T) as (F & M & A1 & A2).
  assert (D : absent_or_string (lookup "description" p) = true)
    by (apply F; simpl; tauto).
  unfold normalize. fold (details_of p).
  rewrite (call_toString_string _ D), (call_toString_string _ M). cbn [bind].
  eexists. split; [reflexivity|]. cbn.
  repeat split; apply or_default_string; try assumption; apply F; simpl; tauto.
Qed.

End Normalizer.

Section NormalizerClaims.

Context {JN : JsNumber} {RT : JsRuntime}.

(** C6, amended.  The clock reaches the alert through the timestamp only.
    Two calls on one event at two times fail together or return alerts
    that agree on every field but the timestamp, which is the event's in
    both or the time of each call; they return the same alert when the
    event has a timestamp that is not falsy. *)
Theorem normalize_clock (now1 now2 : string) (p : KenerPayload) :
  (truthy_opt (lookup "timestamp" p) = true -> normalize now1 p = normalize now2 p)
  /\ (forall e, normalize now1 p = Throw e -> normalize now2 p = Throw e)
  /\ (forall k1, normalize now1 p = Ok k1 ->
      exists k2,
        normalize now2 p = Ok k2
        /\ id k1 = id k2 /\ alertName k1 = alertName k2
        /\ severity k1 = severity k2 /\ status k1 = status k2
        /\ source k1 = source k2
        /\ description k1 = description k2 /\ metric k1 = metric k2
        /\ currentValue k1 = currentValue k2 /\ threshold k1 = threshold k2
        /\ actionText k1 = actionText k2 /\ actionUrl k1 = actionUrl k2
        /\ (Some (timestamp k1) = lookup "timestamp" p /\ timestamp k2 = timestamp k1
            \/ timestamp k1 = JStr now1 /\ timestamp k2 = JStr now2)).
Proof.
  unfold normalize.
  destruct (call_toString (or_default (lookup "description" p) (JStr ""))) as [d|e1];
    cbn [bind].
  2: { repeat split; try discriminate; auto. }
  destruct (call_toString
              (or_default (get (nullish (lookup "details" p) (JObj [])) "metric") (JStr "")))
    as [m|e2]; cbn [bind].
  2: { repeat split; try discriminate; auto. }
  split; [|split].
  - intro H. now rewrite (or_default_absent_or_present_same _ (JStr now1) (JStr now2) H).
  - discriminate.
  - intros k1 H. injection H as <-. eexists. split; [reflexivity|]. cbn.
    repeat split.
    destruct (truthy_opt (lookup "timestamp" p)) eqn:E.
    + left. rewrite (or_default_present _ (JStr now1) E). split; [reflexivity|].
      apply (or_default_absent_or_present_same _ _ _ E).
    + right. now rewrite !(or_default_absent _ _ E).
Qed.

End NormalizerClaims.

(** ** The lines every message has *)

Section Always.

Context {JN : JsNumber} {RT : JsRuntime}.

Lemma when_true_line (c : bool) (r : result string) (label : string) (l : list string) :
  c = true ->
  when c (s <- r ;; Ok [label ++ s ++ "</code>"]) = Ok l ->
  exists s, l = [label ++ s ++ "</code>"].
Proof.
  intros -> H. cbn [when] in H. destruct r as [s|]; [|discriminate].
  cbn [bind] in H. injection H as <-. now exists s.
Qed.

(** Whatever the alert, when the lines are built, the Severity and the
    Status lines are among them, and so are the Source and the Time lines
    of an alert whose source and timestamp are not falsy. *)
Lemma message_lines_has (k : NormalizedAlert) (lines : list string) :
  message_lines k = Ok lines ->
  (exists s, In (severityEmoji k ++ " <b>Severity:</b> <code>" ++ s ++ "</code>") lines)
  /\ (exists s, In ("<b>Status:</b> <code>" ++ s ++ "</code>") lines)
  /\ (truthy (source k) = true ->
      exists s, In ("<b>Source:</b> <code>" ++ s ++ "</code>") lines)
  /\ (truthy (timestamp k) = true ->
      exists s, In ("<b>Time:</b> <code>" ++ s ++ "</code>") lines).
Proof.
  unfold message_lines. intro H.
  destruct (ToString (alertName k)) as [name|]; [|discriminate]. cbn [bind] in H.
  destruct (escapeHtml (JStr (statusEmoji k ++ " " ++ name))) as [title|];
    [|discriminate]. cbn [bind] in H.
  destruct (when (nonempty (description k)) _) as [desc|]; [|discriminate].
  cbn [bind] in H.
  destruct (escapeHtml (severity k)) as [sev|]; [|discriminate]. cbn [bind] in H.
  destruct (escapeHtml (status k)) as [st|]; [|discriminate]. cbn [bind] in H.
  destruct (when (truthy (source k)) _) as [src|] eqn:Esrc; [|discriminate].
  cbn [bind] in H.
  destruct (when (nonempty (metric k)) _) as [mon|]; [|discriminate].
  cbn [bind] in H.
  destruct (when (not_null (currentValue k)) _) as [cur|]; [|discriminate].
  cbn [bind] in H.
  destruct (when (not_null (threshold k)) _) as [thr|]; [|discriminate].
  cbn [bind] in H.
  destruct (when (truthy (timestamp k)) _) as [tim|] eqn:Etim; [|discriminate].
  cbn [bind] in H.
  destruct (when (truthy (actionUrl k)) _) as [lnk|]; [|discriminate].
  cbn [bind] in H. cbv zeta in H. apply Ok_inj in H. subst lines.
  split; [|split; [|split]].
  - exists sev. rewrite !in_app_iff. right; right; left. right; left. reflexivity.
  - exists st. rewrite !in_app_iff. right; right; left. right; right; left. reflexivity.
  - intro C. destruct (when_true_line _ _ _ _ C Esrc) as [s ->].
    exists s. rewrite !in_app_iff. right; right; right; left. now left.
  - intro C. destruct (when_true_line _ _ _ _ C Etim) as [s ->].
    exists s. rewrite !in_app_iff. do 7 right. left. now left.
Qed.

Lemma occurs_label (label line : string) (lines : list string) :
  In line lines -> occurs label line = true ->
  occurs label (String.concat newline lines) = true.
Proof. intros I H. exact (occurs_concat_in _ _ _ _ I H). Qed.

End Always.

(** ** The handler, the dispatcher and the configuration *)

Section Boundary.

Context {JN : JsNumber} {RT : JsRuntime}.

Lemma nonempty_true_iff (s : string) : nonempty s = true <-> s <> "".
Proof. destruct s; simpl; split; congruence. Qed.

Lemma nonempty_false_iff (s : string) : nonempty s = false <-> s = "".
Proof. destruct s; simpl; split; congruence. Qed.

(** After the gate the handler answers 200 first and once; what follows is
    at most the outbound call and the log of its failure. *)
Lemma relay_trace (cfg : AppConfig) (now : string) (fetch : Fetch) (req : Request) :
  exists rest outcome,
    relay cfg now fetch req = (acknowledged :: rest, outcome)
    /\ responses rest = []
    /\ length (outbound_calls rest) <= 1.
Proof.
  unfold relay.
  destruct (k <- normalize now (req_body req) ;; buildTelegramMessage k) as [msg|e].
  - destruct (sendTelegram fetch msg cfg); eexists; eexists;
      (split; [reflexivity|]); (split; [reflexivity|]); simpl; lia.
  - eexists; eexists. split; [reflexivity|]. split; [reflexivity | simpl; lia].
Qed.

Lemma relay_responses (cfg : AppConfig) (now : string) (fetch : Fetch) (req : Request) :
  responses (fst (relay cfg now fetch req)) = [acknowledged].
Proof.
  destruct (relay_trace cfg now fetch req) as (rest & outcome & E & R & _).
  rewrite E. cbn [fst responses filter acknowledged]. fold (responses rest). now rewrite R.
Qed.

(** The gate of the handler is [authorize], applied to the trimmed header. *)
Lemma post_root_authorize
  (cfg : AppConfig) (now : string) (fetch : Fetch) (req : Request) :
  post_root cfg now fetch req
  = match authorize (presented req) (kenerWebhookSecret cfg) with
    | Ok true => relay cfg now fetch req
    | Ok false => ([unauthorized], Ok tt)
    | Throw e => ([], Throw e)
    end.
Proof.
  unfold post_root, authorize.
  destruct (kenerWebhookSecret cfg) as [|c s]; reflexivity.
Qed.

(** C4.  With a secret configured and a presented token that, trimmed,
    differs from it, the handler answers 401 with [{ok: false, error: "invalid token"}],
    returns, and makes no outbound call.  In every other case its first
    effect is the answer 200 with [{ok: true}], which is its only answer;
    the outbound call comes after it, and the answers are the same whatever
    the network does. *)
Theorem post_root_responses
  (cfg : AppConfig) (now : string) (fetch : Fetch) (req : Request) :
  (kenerWebhookSecret cfg <> "" /\ presented req <> kenerWebhookSecret cfg ->
   post_root cfg now fetch req
   = ([Respond 401 (JObj [("ok", JBool false); ("error", JStr "invalid token")])], Ok tt)
   /\ outbound_calls (fst (post_root cfg now fetch req)) = [])
  /\ (kenerWebhookSecret cfg = "" \/ presented req = kenerWebhookSecret cfg ->
      exists rest outcome,
        post_root cfg now fetch req
        = (Respond 200 (JObj [("ok", JBool true)]) :: rest, outcome)
        /\ responses rest = []
        /\ (forall msg,
            (k <- normalize now (req_body req) ;; buildTelegramMessage k) = Ok msg ->
            outbound_calls rest = [Outbound (telegram_url cfg) (telegram_init msg cfg)]))
  /\ (forall fetch',
      responses (fst (post_root cfg now fetch' req))
      = responses (fst (post_root cfg now fetch req))).
Proof.
  assert (G : post_root cfg now fetch req
              = if (nonempty (kenerWebhookSecret cfg)
                    && negb (String.eqb (presented req) (kenerWebhookSecret cfg)))%bool
                then ([unauthorized], Ok tt) else relay cfg now fetch req).
  { unfold post_root. destruct (nonempty (kenerWebhookSecret cfg)); [|reflexivity].
    destruct (String.eqb_spec (presented req) (kenerWebhookSecret cfg)) as [E|N].
    - apply timingSafeEq_true_iff in E. now rewrite E.
    - apply timingSafeEq_false_iff in N. now rewrite N. }
  split; [|split].
  - intros [S N]. rewrite G.
    apply nonempty_true_iff in S. apply String.eqb_neq in N. rewrite S, N.
    split; reflexivity.
  - intros C.
    destruct (relay_trace cfg now fetch req) as (rest & outcome & E & R & S).
    exists rest, outcome. split; [|split; [exact R|]].
    + change (Respond 200 (JObj [("ok", JBool true)])) with acknowledged.
      rewrite G, <- E.
      destruct C as [C|C].
      * apply nonempty_false_iff in C. now rewrite C.
      * apply String.eqb_eq in C. rewrite C. now rewrite andb_false_r.
    + intros msg M. unfold relay in E. rewrite M in E.
      destruct (sendTelegram fetch msg cfg); injection E as <- _; reflexivity.
  - intro fetch'.
    assert (G' : post_root cfg now fetch' req
                 = if (nonempty (kenerWebhookSecret cfg)
                       && negb (String.eqb (presented req) (kenerWebhookSecret cfg)))%bool
                   then ([unauthorized], Ok tt) else relay cfg now fetch' req).
    { unfold post_root. destruct (nonempty (kenerWebhookSecret cfg)); [|reflexivity].
      destruct (String.eqb_spec (presented req) (kenerWebhookSecret cfg)) as [E|N].
      - apply timingSafeEq_true_iff in E. now rewrite E.
      - apply timingSafeEq_false_iff in N. now rewrite N. }
    rewrite G, G'.
    destruct (nonempty (kenerWebhookSecret cfg)
              && negb (String.eqb (presented req) (kenerWebhookSecret cfg)))%bool;
      [reflexivity|].
    now rewrite !relay_responses.
Qed.

(** ** [formatTime] *)

Lemma formatTime_valid (s : string) (t : Time) (f : string) :
  Date_parse s = Some t -> format_en_GB t = Ok f ->
  formatTime (JStr s) = JStr (f ++ " UTC").
Proof. intros P F. unfold formatTime, new_Date. cbn [bind]. rewrite P. simpl. now rewrite F. Qed.

Lemma formatTime_fallback (s : string) (t : Time) (e : exn) :
  Date_parse s = Some t -> format_en_GB t = Throw e ->
  formatTime (JStr s) = JStr s.
Proof. intros P F. unfold formatTime, new_Date. cbn [bind]. rewrite P. simpl. now rewrite F. Qed.

(** C5.  A timestamp that [Date] cannot read is an Invalid Date, which
    [toLocaleString] prints without throwing: [formatTime] returns
    ["Invalid Date UTC"] and the [catch] that returns the raw timestamp is
    not reached. *)
Theorem formatTime_invalid_date (s : string) :
  Date_parse s = None -> formatTime (JStr s) = JStr "Invalid Date UTC".
Proof. intro P. unfold formatTime, new_Date. cbn [bind]. now rewrite P. Qed.

(** ** [sendTelegram] *)

(** What [sendTelegram] does with what [fetch] settles to. *)
Lemma sendTelegram_cases (fetch : Fetch) (text : string) (cfg : AppConfig) :
  match fetch (telegram_url cfg) (telegram_init text cfg) with
  | Throw e => sendTelegram fetch text cfg = Throw e
  | Ok resp =>
      let data := match resp_json resp with Ok d => d | Throw _ => JNull end in
      sendTelegram fetch text cfg
      = if (resp_ok resp && truthy_opt (opt_get (Some data) "ok"))%bool then Ok tt
        else Throw (sendTelegram_failed (resp_status resp) data)
  end.
Proof.
  unfold sendTelegram.
  destruct (fetch (telegram_url cfg) (telegram_init text cfg)) as [resp|e];
    [|reflexivity].
  cbn [bind]. cbv zeta.
  destruct (resp_ok resp); [|reflexivity]. simpl.
  destruct (truthy_opt _); reflexivity.
Qed.

Lemma truthy_ok_object (data : json) :
  truthy_opt (opt_get (Some data) "ok") = true <->
  exists fields, data = JObj fields /\ truthy_opt (lookup "ok" fields) = true.
Proof.
  split.
  - destruct data; simpl; try discriminate. intro H. now exists fields.
  - intros (fields & -> & H). exact H.
Qed.

(** C7, amended.  The dispatch succeeds exactly when [fetch] resolves to a
    response with a success status whose body decodes to an object with an
    [ok] field that is not falsy.  A response that falls short of this
    makes it throw an error whose message carries the status and the
    decoded body, [null] standing for a body that did not decode; a [fetch]
    that rejects makes it throw what [fetch] threw. *)
Theorem sendTelegram_outcome (fetch : Fetch) (text : string) (cfg : AppConfig) :
  (sendTelegram fetch text cfg = Ok tt <->
   exists resp fields,
     fetch (telegram_url cfg) (telegram_init text cfg) = Ok resp
     /\ resp_ok resp = true
     /\ resp_json resp = Ok (JObj fields)
     /\ truthy_opt (lookup "ok" fields) = true)
  /\ (forall resp body,
      fetch (telegram_url cfg) (telegram_init text cfg) = Ok resp ->
      resp_json resp = Ok body ->
      resp_ok resp = false \/ truthy_opt (opt_get (Some body) "ok") = false ->
      sendTelegram fetch text cfg
      = Throw (Error ("Telegram sendMessage failed: HTTP " ++ num_to_string (resp_status resp)
                      ++ " body=" ++ JSON_stringify body)))
  /\ (forall resp e,
      fetch (telegram_url cfg) (telegram_init text cfg) = Ok resp ->
      resp_json resp = Throw e ->
      sendTelegram fetch text cfg
      = Throw (Error ("Telegram sendMessage failed: HTTP " ++ num_to_string (resp_status resp)
                      ++ " body=" ++ JSON_stringify JNull)))
  /\ (forall e,
      fetch (telegram_url cfg) (telegram_init text cfg) = Throw e ->
      sendTelegram fetch text cfg = Throw e).
Proof.
  pose proof (sendTelegram_cases fetch text cfg) as C.
  destruct (fetch (telegram_url cfg) (telegram_init text cfg)) as [resp|e0].
  - cbv zeta in C. split; [|split; [|split]].
    + rewrite C. split.
      * intro H.
        destruct (resp_ok resp) eqn:O; [|discriminate].
        destruct (truthy_opt _) eqn:T; [|discriminate].
        apply truthy_ok_object in T as (fields & D & T).
        destruct (resp_json resp) as [d|] eqn:J; [|discriminate]. subst d.
        exists resp, fields. repeat split; solve [assumption | reflexivity].
      * intros (resp' & fields & E & O & J & T). injection E as <-.
        rewrite O, J. simpl. now rewrite T.
    + intros resp' body E J H. injection E as <-. rewrite C, J.
      destruct H as [H|H]; rewrite H; [reflexivity | now rewrite andb_false_r].
    + intros resp' e E J. injection E as <-. rewrite C, J. simpl.
      now rewrite andb_false_r.
    + discriminate.
  - split; [|split; [|split]]; try discriminate.
    + rewrite C. split; [discriminate|]. intros (resp & fields & E & _). discriminate.
    + intros e E. injection E as <-. exact C.
Qed.

(** ** [loadConfig] *)

Lemma str_or_empty (x : option string) :
  str_or x "" = match x with Some v => v | None => "" end.
Proof. destruct x as [[|c v]|]; reflexivity. Qed.

(** The text [loadConfig] parses the port from. *)
Lemma port_text (x : option string) :
  str_or x "3000" = match x with
                    | None => "3000"
                    | Some "" => "3000"
                    | Some v => v
                    end.
Proof. destruct x as [[|c v]|]; reflexivity. Qed.

(** C9, amended.  The configuration loads exactly when the port text, which
    is ["3000"] when PORT is unset or empty, parses after trimming to a
    finite number that is not [<= 0], and the bot token and the chat id are
    not blank after trimming.  The configuration then holds the parsed port
    and the trimmed values; otherwise loading throws. *)
Theorem loadConfig_succeeds_iff (env : Env) :
  let port_raw := trim (match lookup "PORT" env with
                        | None => "3000"
                        | Some "" => "3000"
                        | Some v => v
                        end) in
  let conditions :=
    positive_finite (Number_of_string port_raw)
    /\ trim (env_value env "TELEGRAM_BOT_TOKEN") <> ""
    /\ trim (env_value env "TELEGRAM_CHAT_ID") <> "" in
  (succeeds (loadConfig env) <-> conditions)
  /\ (conditions ->
      loadConfig env
      = Ok {| port := Number_of_string port_raw;
              kenerWebhookSecret := trim (env_value env "KENER_WEBHOOK_SECRET");
              telegramBotToken := trim (env_value env "TELEGRAM_BOT_TOKEN");
              telegramChatId := trim (env_value env "TELEGRAM_CHAT_ID") |})
  /\ (~ conditions -> exists message, loadConfig env = Throw (Error message)).
Proof.
  cbv zeta. unfold loadConfig, positive_finite, env_value, succeeds.
  rewrite !str_or_empty, port_text.
  set (port_raw := trim (match lookup "PORT" env with
                         | None => "3000" | Some "" => "3000" | Some v => v end)).
  set (token := trim (match lookup "TELEGRAM_BOT_TOKEN" env with Some v => v | None => "" end)).
  set (chat := trim (match lookup "TELEGRAM_CHAT_ID" env with Some v => v | None => "" end)).
  destruct (num_is_finite (Number_of_string port_raw)) eqn:F; simpl.
  2: { split; [|split].
       - split; [intros [c H]; discriminate | intros [[H _] _]; discriminate].
       - intros [[H _] _]; discriminate.
       - intros _. eexists. reflexivity. }
  destruct (num_le_zero (Number_of_string port_raw)) eqn:Z; simpl.
  { split; [|split].
    - split; [intros [c H]; discriminate | intros [[_ H] _]; discriminate].
    - intros [[_ H] _]; discriminate.
    - intros _. eexists. reflexivity. }
  destruct (nonempty token) eqn:T; simpl.
  2: { apply nonempty_false_iff in T. split; [|split].
       - split; [intros [c H]; discriminate | intros (_ & H & _); congruence].
       - intros (_ & H & _); congruence.
       - intros _. eexists. reflexivity. }
  destruct (nonempty chat) eqn:C; simpl.
  2: { apply nonempty_false_iff in C. split; [|split].
       - split; [intros [c H]; discriminate | intros (_ & _ & H); congruence].
       - intros (_ & _ & H); congruence.
       - intros _. eexists. reflexivity. }
  apply nonempty_true_iff in T. apply nonempty_true_iff in C.
  split; [|split].
  - split; [intros _; now repeat split | intros _; eexists; reflexivity].
  - reflexivity.
  - intro N. exfalso. apply N. now repeat split.
Qed.

End Boundary.

(** * The statements at sample inputs *)

Module Checks.

Import Demo Sample.

Example escape_script : escape "<script>a&b</script>" = "&lt;script&gt;a&amp;b&lt;/script&gt;".
Proof. reflexivity. Qed.

Example escape_is_not_idempotent : escape (escape "<") = "&amp;lt;".
Proof. reflexivity. Qed.

Example trim_blanks : trim (bytes [32; 9; 194; 160] ++ "to ken" ++ bytes [13; 10]) = "to ken".
Proof. reflexivity. Qed.

Example ToString_array :
  ToString (JArr [JNum (Int 1); JNull; JStr "a"; JArr [JBool true; JObj []]])
  = Ok "1,,a,true,[object Object]".
Proof. reflexivity. Qed.

Example formatTime_leap_day :
  formatTime (JStr "2024-02-29T13:05:59.123Z") = JStr "29 Feb 2024, 13:05 UTC".
Proof. reflexivity. Qed.

(** The README event: the alert, and the lines of its message after the
    title. *)
Example normalize_cpu_high :
  normalize now cpu_high
  = Ok {| id := JStr "demo-1"; alertName := JStr "CPU high";
          severity := JStr "critical"; status := JStr "TRIGGERED";
          source := JStr "Kener"; timestamp := JStr now;
          description := ""; metric := "";
          currentValue := JNull; threshold := JNull;
          actionText := JStr "Open"; actionUrl := JStr "" |}.
Proof. reflexivity. Qed.

Example message_cpu_high :
  (k <- normalize now cpu_high ;; message_lines k)
  = Ok ["<b>" ++ glyph_triggered ++ " CPU high</b>";
        "";
        glyph_critical ++ " <b>Severity:</b> <code>critical</code>";
        "<b>Status:</b> <code>TRIGGERED</code>";
        "<b>Source:</b> <code>Kener</code>";
        "<b>Time:</b> <code>1 Jan 2024, 00:00 UTC</code>"].
Proof. reflexivity. Qed.

(** A severity that is a number reaches [escapeHtml] as a number, which
    has no [replace]. *)
Example numeric_severity_throws :
  (k <- normalize now [("severity", JNum (Int 3))] ;; buildTelegramMessage k)
  = Throw TypeError.
Proof. reflexivity. Qed.

(** C1 at an alert whose name is a script tag. *)
Lemma rendered_message_is_escaped_witness :
  exists msg,
    buildTelegramMessage full = Ok msg
    /\ msg = String.concat newline (typed_lines full)
    /\ only_formatter_markup msg.
Proof.
  destruct (@rendered_message_is_escaped number runtime) as (_ & H & _).
  apply (H full). reflexivity.
Defined.

(** C8 at an alert with every line, and at one with none. *)
Lemma conditional_lines_witness :
  (exists msg,
     buildTelegramMessage full = Ok msg
     /\ occurs "<b>Source:</b> <code>Kener &amp; co</code>" msg = true
     /\ occurs "<b>Monitor:</b> <code>cpu</code>" msg = true
     /\ occurs "<b>Current:</b> <code>97</code>" msg = true
     /\ occurs "<b>Threshold:</b> <code>90</code>" msg = true
     /\ occurs "<a href=" msg = true)
  /\ (exists msg,
        buildTelegramMessage bare = Ok msg
        /\ occurs "<b>Source:</b>" msg = false
        /\ occurs "<b>Monitor:</b>" msg = false
        /\ occurs "<b>Current:</b>" msg = false
        /\ occurs "<b>Threshold:</b>" msg = false
        /\ occurs "<a href=" msg = false).
Proof.
  split.
  - destruct (@conditional_lines number runtime full eq_refl)
      as (msg & B & _ & _ & _ & _ & L & S & M & C & T & _).
    exists msg. split; [exact B|].
    split; [exact (S eq_refl)|]. split; [exact (M eq_refl)|].
    split; [exact (proj2 (C eq_refl))|]. split; [exact (proj2 (T eq_refl))|].
    exact L.
  - destruct (@conditional_lines number runtime bare eq_refl)
      as (msg & B & S & M & C & T & L & _).
    exists msg. repeat split; assumption.
Defined.

(** C3 as stated fails: a number given as [id] stays a number, and a
    description that is an object with a [toString] key makes [normalize]
    throw. *)
Lemma normalize_keeps_non_strings :
  (exists k, normalize now numeric_id = Ok k /\ id k = JNum (Int 5) /\ is_str (id k) = false)
  /\ normalize now odd_description = Throw TypeError.
Proof. split; [eexists; split; [reflexivity|]; split; reflexivity | reflexivity]. Qed.

(** C6 at an event with a timestamp and at the README event. *)
Lemma normalize_clock_witness :
  normalize now stamped = normalize later stamped
  /\ exists k1 k2,
       normalize now cpu_high = Ok k1 /\ normalize later cpu_high = Ok k2
       /\ alertName k1 = alertName k2
       /\ timestamp k1 = JStr now /\ timestamp k2 = JStr later.
Proof.
  destruct (@normalize_clock number now later stamped) as (S & _).
  split; [apply S; reflexivity|].
  destruct (@normalize_clock number now later cpu_high) as (_ & _ & H).
  destruct (normalize now cpu_high) as [k1|] eqn:N; [|discriminate].
  destruct (H k1 eq_refl) as (k2 & N2 & _ & A & _ & _ & _ & _ & _ & _ & _ & _ & _ & T).
  exists k1, k2. split; [reflexivity|]. split; [exact N2|]. split; [exact A|].
  destruct T as [[T _]|T]; [|exact T].
  cbn in T. discriminate.
Defined.

(** C6 as stated fails: the empty object, normalised at two times, gives
    two alerts. *)
Lemma normalize_differs_with_the_clock :
  normalize now [] <> normalize later [].
Proof.
  intro H.
  apply (f_equal (fun r => match r with Ok k => text_of (timestamp k) | Throw _ => "" end)) in H.
  cbn in H. revert H. apply String.eqb_neq. reflexivity.
Qed.

(** C4 with a wrong token, and with the right one between blanks. *)
Lemma post_root_responses_witness :
  post_root config now (replies accepted) (request "wrong")
  = ([Respond 401 (JObj [("ok", JBool false); ("error", JStr "invalid token")])], Ok tt)
  /\ exists rest outcome,
       post_root config now (replies accepted) (request " secret ")
       = (Respond 200 (JObj [("ok", JBool true)]) :: rest, outcome)
       /\ responses rest = []
       /\ length (outbound_calls rest) = 1.
Proof.
  split.
  - destruct (@post_root_responses number runtime config now (replies accepted)
                (request "wrong")) as (H & _).
    apply H. split; [discriminate|].
    apply String.eqb_neq. reflexivity.
  - destruct (@post_root_responses number runtime config now (replies accepted)
                (request " secret ")) as (_ & H & _).
    destruct H as (rest & outcome & E & R & S); [right; reflexivity|].
    exists rest, outcome. split; [exact E|]. split; [exact R|].
    assert (M : (k <- normalize now (req_body (request " secret ")) ;; buildTelegramMessage k)
                = Ok (String.concat newline
                        (typed_lines
                           {| id := JStr "demo-1"; alertName := JStr "CPU high";
                              severity := JStr "critical"; status := JStr "TRIGGERED";
                              source := JStr "Kener"; timestamp := JStr now;
                              description := ""; metric := "";
                              currentValue := JNull; threshold := JNull;
                              actionText := JStr "Open"; actionUrl := JStr "" |})))
      by reflexivity.
    now rewrite (S _ M).
Defined.

(** C5 at a timestamp that is not a date: the Time line of the message
    reads "Invalid Date UTC" and the timestamp itself is not in the
    message. *)
Lemma formatTime_invalid_date_witness :
  formatTime (JStr "garbage") = JStr "Invalid Date UTC"
  /\ formatTime (JStr "garbage") <> JStr "garbage"
  /\ exists msg,
       (k <- normalize now [("timestamp", JStr "garbage")] ;; buildTelegramMessage k) = Ok msg
       /\ occurs "<b>Time:</b> <code>Invalid Date UTC</code>" msg = true
       /\ occurs "garbage" msg = false.
Proof.
  assert (E : formatTime (JStr "garbage") = JStr "Invalid Date UTC").
  { apply (@formatTime_invalid_date number runtime "garbage"). reflexivity. }
  split; [exact E|]. split; [rewrite E; discriminate|].
  eexists. split; [reflexivity|]. split; reflexivity.
Defined.

(** C7 at a response Telegram gives to a message it accepted. *)
Lemma sendTelegram_outcome_witness :
  sendTelegram (replies accepted) "hello" config = Ok tt.
Proof.
  destruct (@sendTelegram_outcome number runtime (replies accepted) "hello" config)
    as (H & _).
  apply H. exists accepted, [("ok", JBool true); ("result", JObj [])].
  repeat split; reflexivity.
Defined.

(** C7 as stated fails: a body whose [ok] field is the string ["no"], not
    [true], passes. *)
Lemma sendTelegram_accepts_any_truthy_flag :
  resp_json ok_as_text = Ok (JObj [("ok", JStr "no")])
  /\ lookup "ok" [("ok", JStr "no")] <> Some (JBool true)
  /\ sendTelegram (replies ok_as_text) "hello" config = Ok tt.
Proof. split; [reflexivity|]. split; [cbn; discriminate | reflexivity]. Qed.

(** C9 at an environment with a port of its own. *)
Lemma loadConfig_succeeds_iff_witness :
  loadConfig environment
  = Ok {| port := Int 8080; kenerWebhookSecret := "";
          telegramBotToken := "123:abc"; telegramChatId := "-100200" |}.
Proof.
  destruct (@loadConfig_succeeds_iff number environment) as (_ & H & _).
  rewrite H; [reflexivity|].
  split; [split; reflexivity | split; apply String.eqb_neq; reflexivity].
Defined.

(** C9 as stated fails: with PORT set to the empty string the port text is
    ["3000"] and loading succeeds, although the empty string parses to [0],
    which is not positive. *)
Lemma loadConfig_defaults_an_empty_port :
  lookup "PORT" empty_port = Some ""
  /\ ~ positive_finite (Number_of_string (trim ""))
  /\ exists cfg, loadConfig empty_port = Ok cfg /\ port cfg = Int 3000.
Proof.
  split; [reflexivity|]. split.
  - intros [_ H]. cbn in H. discriminate.
  - eexists. split; reflexivity.
Qed.

End Checks.

(** * Further properties of the code *)

(** ** [timingSafeEq] and [escapeHtml] *)

(** X1.  [timingSafeEq] never throws and decides the equality of its two
    strings, in either order. *)
Theorem timingSafeEq_decides_equality (a b : string) :
  timingSafeEq a b = Ok (String.eqb a b)
  /\ timingSafeEq a b = timingSafeEq b a.
Proof.
  assert (E : forall x y, timingSafeEq x y = Ok (String.eqb x y)).
  { intros x y. destruct (String.eqb_spec x y) as [H|H].
    - now apply timingSafeEq_true_iff.
    - now apply timingSafeEq_false_iff. }
  split; [apply E|]. rewrite !E. now rewrite String.eqb_sym.
Qed.

Lemma unescape_escape_char (c : ascii) (rest : string) :
  unescape_from 0 (escape_char c ++ rest) = String c (unescape_from 0 rest).
Proof.
  unfold escape_char.
  destruct (Ascii.eqb c "&") eqn:E1.
  { apply Ascii.eqb_eq in E1. subst c. reflexivity. }
  destruct (Ascii.eqb c "<") eqn:E2.
  { apply Ascii.eqb_eq in E2. subst c. reflexivity. }
  destruct (Ascii.eqb c ">") eqn:E3.
  { apply Ascii.eqb_eq in E3. subst c. reflexivity. }
  change (String c "" ++ rest) with (String c rest).
  cbn [unescape_from]. now rewrite E1.
Qed.

(** X2.  Escaping loses nothing: reading the three entities back gives the
    text again, so two texts with one escaped form are one text. *)
Theorem escape_round_trip :
  (forall s, unescape (escape s) = s)
  /\ (forall a b, escape a = escape b -> a = b).
Proof.
  assert (R : forall s, unescape (escape s) = s).
  { unfold unescape. induction s as [|c s IH]; [reflexivity|].
    now rewrite escape_cons, unescape_escape_char, IH. }
  split; [exact R|].
  intros a b H. rewrite <- (R a), <- (R b). now rewrite H.
Qed.

Lemma has_char_count (c : ascii) (s : string) :
  has_char c s = false <-> count_char c s = 0.
Proof.
  induction s as [|x s IH]; [simpl; tauto|].
  cbn [has_char count_char]. destruct (Ascii.eqb x c); simpl.
  - split; discriminate.
  - exact IH.
Qed.

Lemma plain_counts (s : string) :
  plain s = true <->
  count_char "&" s = 0 /\ count_char "<" s = 0 /\ count_char ">" s = 0.
Proof.
  unfold plain. rewrite !andb_true_iff, !negb_true_iff, !has_char_count. tauto.
Qed.

Lemma length_append (a b : string) :
  String.length (a ++ b) = String.length a + String.length b.
Proof. induction a as [|c a IH]; simpl; [reflexivity | now rewrite IH]. Qed.

Lemma escape_length (s : string) :
  String.length (escape s)
  = String.length s + 4 * count_char "&" s + 3 * count_char "<" s + 3 * count_char ">" s.
Proof.
  induction s as [|c s IH]; [reflexivity|].
  rewrite escape_cons, length_append, IH. cbn [String.length count_char].
  unfold escape_char.
  destruct (Ascii.eqb c "&") eqn:E1.
  { apply Ascii.eqb_eq in E1. subst c. simpl. lia. }
  destruct (Ascii.eqb c "<") eqn:E2.
  { apply Ascii.eqb_eq in E2. subst c. simpl. lia. }
  destruct (Ascii.eqb c ">") eqn:E3.
  { apply Ascii.eqb_eq in E3. subst c. simpl. lia. }
  simpl. lia.
Qed.

Lemma escape_plain (s : string) : plain s = true -> escape s = s.
Proof.
  unfold plain. induction s as [|c s IH]; [reflexivity|].
  cbn [has_char]. rewrite !negb_orb, !andb_true_iff, !negb_true_iff.
  intros [[[A1 A2] [L1 L2]] [G1 G2]].
  rewrite escape_cons. unfold escape_char. rewrite A1, L1, G1.
  cbn [append]. f_equal. apply IH.
  now rewrite A2, L2, G2.
Qed.

Lemma escape_has_ampersand (s : string) :
  plain s = false -> has_char "&" (escape s) = true.
Proof.
  unfold plain. induction s as [|c s IH]; [discriminate|].
  cbn [has_char]. rewrite escape_cons. unfold escape_char.
  destruct (Ascii.eqb c "&") eqn:E1; [reflexivity|].
  destruct (Ascii.eqb c "<") eqn:E2; [reflexivity|].
  destruct (Ascii.eqb c ">") eqn:E3; [reflexivity|].
  cbn [orb append has_char]. rewrite E1. exact IH.
Qed.

(** X3.  [escape] leaves a text as it is exactly when the text has none of
    [&], [<], [>]; otherwise the text grows by four characters for each [&]
    and three for each [<] and [>], and escaping it a second time changes
    it again. *)
Theorem escape_fixed_points (s : string) :
  (escape s = s <-> plain s = true)
  /\ String.length (escape s)
     = String.length s + 4 * count_char "&" s + 3 * count_char "<" s + 3 * count_char ">" s
  /\ (plain s = false -> escape (escape s) <> escape s).
Proof.
  assert (F : forall t, escape t = t -> plain t = true).
  { intros t E. apply plain_counts. pose proof (escape_length t) as L.
    rewrite E in L. lia. }
  split; [|split].
  - split; [apply F | apply escape_plain].
  - apply escape_length.
  - intros P E. apply F in E. unfold plain in E.
    rewrite (escape_has_ampersand s P) in E. discriminate.
Qed.

Section ValueFacts.

Context {JN : JsNumber} {RT : JsRuntime}.

(** X4.  [escapeHtml] returns the escaped text of a string and the empty
    text of a falsy value; on any other value it throws a [TypeError]. *)
Theorem escapeHtml_on_values (v : json) :
  (forall s, v = JStr s -> escapeHtml v = Ok (escape s))
  /\ (truthy v = false -> escapeHtml v = Ok "")
  /\ (truthy v = true -> is_str v = false -> escapeHtml v = Throw TypeError)
  /\ returned (escapeHtml v) = escapable v.
Proof.
  split; [|split; [|split]].
  - intros s ->. apply escapeHtml_str.
  - intro F. unfold escapeHtml. simpl. rewrite F. reflexivity.
  - intros T S. unfold escapeHtml. simpl. rewrite T.
    destruct v; try reflexivity; discriminate.
  - unfold escapable, escapeHtml. simpl.
    destruct (truthy v) eqn:T; [|destruct v; reflexivity].
    destruct v; reflexivity.
Qed.

End ValueFacts.

(** ** The normalizer on any event *)

Section NormalizerFacts.

Context {JN : JsNumber} {RT : JsRuntime}.

(** Induction on a JSON value, with the property at hand for the items of
    an array. *)
Lemma json_items_ind (P : json -> Prop) :
  P JNull -> (forall b, P (JBool b)) -> (forall n, P (JNum n)) ->
  (forall s, P (JStr s)) ->
  (forall items, Forall P items -> P (JArr items)) ->
  (forall fields, P (JObj fields)) ->
  forall v, P v.
Proof.
  intros Hnull Hbool Hnum Hstr Harr Hobj.
  fix IH 1. intros [|b|n|s|items|fields].
  - exact Hnull.
  - apply Hbool.
  - apply Hnum.
  - apply Hstr.
  - apply Harr. induction items as [|x rest IHr]; constructor.
    + apply IH.
    + exact IHr.
  - apply Hobj.
Qed.

(** [ToString] returns on the printable values and throws a [TypeError] on
    the others. *)
Lemma ToString_printable (v : json) :
  match ToString v with
  | Ok _ => printable v = true
  | Throw e => printable v = false /\ e = TypeError
  end.
Proof.
  induction v as [|b|n|s|items IH|fields] using json_items_ind;
    try reflexivity.
  - destruct b; reflexivity.
  - cbn [ToString printable].
    induction IH as [|x rest Hx _ IHr]; [reflexivity|].
    assert (Hx' : match (match x with JNull => Ok "" | _ => ToString x end) with
                  | Ok _ => printable x = true
                  | Throw e => printable x = false /\ e = TypeError
                  end).
    { destruct x; exact Hx. }
    destruct (match x with JNull => Ok "" | _ => ToString x end) as [a|e].
    + cbn [bind]. rewrite Hx'. cbn [andb].
      destruct rest as [|y rest']; [reflexivity|].
      destruct ((fix join (l : list json) : result string :=
                   match l with
                   | [] => Ok ""
                   | x0 :: rest0 =>
                       a0 <- match x0 with
                             | JNull => Ok ""
                             | _ => ToString x0
                             end ;;
                       match rest0 with
                       | [] => Ok a0
                       | _ :: _ => b <- join rest0 ;; Ok (a0 ++ "," ++ b)
                       end
                   end) (y :: rest')) as [b|e]; exact IHr.
    + cbn [bind]. destruct Hx' as [Hp ->]. rewrite Hp. now split.
  - cbn [ToString printable]. destruct (has_key "toString" fields); [now split | reflexivity].
Qed.

End NormalizerFacts.

Section NormalizerExtras.

Context {JN : JsNumber} {RT : JsRuntime}.

Lemma truthy_printable (v : json) : truthy v = false -> printable v = true.
Proof. destruct v; try reflexivity; discriminate. Qed.

Lemma returned_toString_field (x : option json) :
  returned (call_toString (or_default x (JStr ""))) = printable_field x
  /\ forall e, call_toString (or_default x (JStr "")) = Throw e -> e = TypeError.
Proof.
  assert (C : forall v, truthy v = true ->
                returned (call_toString v) = printable v
                /\ forall e, call_toString v = Throw e -> e = TypeError).
  { intros v T. pose proof (ToString_printable v) as H.
    destruct v; try discriminate; cbn [call_toString];
      (destruct (ToString _) as [r|e0];
       [split; [now rewrite H | discriminate]
       |destruct H as [H ->]; split; [now rewrite H | intros e E; now injection E]]). }
  destruct x as [v|]; [|split; [reflexivity | discriminate]].
  cbn [or_default printable_field]. destruct (truthy v) eqn:T.
  - now apply C.
  - rewrite (truthy_printable v T). split; [reflexivity | discriminate].
Qed.

(** X5.  [normalize] fails exactly when the description, or the metric of
    the details, is an object with an own [toString] key or an array that
    holds one; it then throws a [TypeError]. *)
Theorem normalize_fails_exactly (now : string) (p : KenerPayload) :
  returned (normalize now p)
  = (printable_field (lookup "description" p)
     && printable_field (get (details_of p) "metric"))%bool
  /\ forall e, normalize now p = Throw e -> e = TypeError.
Proof.
  unfold normalize. fold (details_of p).
  destruct (returned_toString_field (lookup "description" p)) as [D1 D2].
  destruct (returned_toString_field (get (details_of p) "metric")) as [M1 M2].
  rewrite <- D1, <- M1.
  destruct (call_toString (or_default (lookup "description" p) (JStr ""))) as [d|e1];
    cbn [bind returned andb].
  - destruct (call_toString (or_default (get (details_of p) "metric") (JStr ""))) as [m|e2];
      cbn [bind returned].
    + split; [reflexivity | discriminate].
    + split; [reflexivity|]. intros e E. injection E as <-. now apply M2.
  - split; [reflexivity|]. intros e E. injection E as <-. now apply D2.
Qed.

Lemma normalize_fails_throw (now : string) (p : KenerPayload) (e : exn) :
  normalize now p = Throw e -> e = TypeError.
Proof.
  unfold normalize. fold (details_of p).
  destruct (returned_toString_field (lookup "description" p)) as [_ D].
  destruct (returned_toString_field (get (details_of p) "metric")) as [_ M].
  destruct (call_toString (or_default (lookup "description" p) (JStr ""))) as [d|e1];
    cbn [bind].
  - destruct (call_toString (or_default (get (details_of p) "metric") (JStr ""))) as [m|e2];
      cbn [bind]; [discriminate|].
    intro E. injection E as <-. now apply M.
  - intro E. injection E as <-. now apply D.
Qed.

(** X6.  Of the actions of an event only the first is read: what follows
    it changes nothing, and an [actions] field that is not a non-empty
    array gives the default action. *)
Theorem only_the_first_action
  (now : string) (first : json) (others : list json) (p : KenerPayload) :
  normalize now (("actions", JArr (first :: others)) :: p)
  = normalize now (("actions", JArr [first]) :: p)
  /\ (first_action p = None ->
      pickAction p = {| text := JStr "Open"; url := JStr "" |})
  /\ (forall v, lookup "actions" p = Some v ->
      (forall a rest, v <> JArr (a :: rest)) -> first_action p = None).
Proof.
  split; [reflexivity|]. split.
  - intro H. unfold pickAction. now rewrite H.
  - intros v L N. unfold first_action. rewrite L.
    destruct v as [| | | |[|a rest]|]; try reflexivity.
    now elim (N a rest).
Qed.

Lemma keeps_or_defaults_or_default (x : option json) (d : json) :
  keeps_or_defaults x d (or_default x d).
Proof.
  split; intro H; [now apply or_default_present | now apply or_default_absent].
Qed.

(** X7.  A field read with [||] holds the inbound value when that is there
    and truthy, whatever its type, and the default otherwise: an empty
    string, [0], [false] and [null] are replaced like a missing key. *)
Theorem fields_keep_or_default (now : string) (p : KenerPayload) (k : NormalizedAlert) :
  normalize now p = Ok k ->
  keeps_or_defaults (lookup "id" p) (JStr "") (id k)
  /\ keeps_or_defaults (lookup "alert_name" p) (JStr "Alert") (alertName k)
  /\ keeps_or_defaults (lookup "severity" p) (JStr "unknown") (severity k)
  /\ keeps_or_defaults (lookup "status" p) (JStr "UNKNOWN") (status k)
  /\ keeps_or_defaults (lookup "source" p) (JStr "Kener") (source k)
  /\ keeps_or_defaults (lookup "timestamp" p) (JStr now) (timestamp k)
  /\ keeps_or_defaults (opt_get (first_action p) "text") (JStr "Open") (actionText k)
  /\ keeps_or_defaults (opt_get (first_action p) "url") (JStr "") (actionUrl k).
Proof.
  intro N.
  destruct (normalize_Ok now p k N)
    as (E1 & E2 & E3 & E4 & E5 & E6 & _ & _ & _ & _ & E11 & E12).
  rewrite E1, E2, E3, E4, E5, E6, E11, E12.
  repeat split; apply keeps_or_defaults_or_default.
Qed.

(** X8.  A detail value read with [??] is dropped only when it is missing
    or [null]: [0], [false] and the empty string are kept.  Details that
    are not an object give the empty metric and two [null] values. *)
Theorem details_keep_unless_null (now : string) (p : KenerPayload) (k : NormalizedAlert) :
  normalize now p = Ok k ->
  (currentValue k = JNull <->
   get (details_of p) "current_value" = None
   \/ get (details_of p) "current_value" = Some JNull)
  /\ (threshold k = JNull <->
      get (details_of p) "threshold" = None \/ get (details_of p) "threshold" = Some JNull)
  /\ (forall v, get (details_of p) "current_value" = Some v -> v <> JNull ->
      currentValue k = v)
  /\ (forall v, get (details_of p) "threshold" = Some v -> v <> JNull -> threshold k = v)
  /\ ((forall fields, lookup "details" p <> Some (JObj fields)) ->
      metric k = "" /\ currentValue k = JNull /\ threshold k = JNull).
Proof.
  intro N.
  destruct (normalize_Ok now p k N)
    as (_ & _ & _ & _ & _ & _ & _ & E8 & E9 & E10 & _).
  assert (Q : forall x, nullish x JNull = JNull <-> x = None \/ x = Some JNull).
  { intros [v|]; [|simpl; tauto]. destruct v; simpl; split; intro H;
      try discriminate; try tauto; destruct H as [H|H]; discriminate. }
  assert (K : forall x v, x = Some v -> v <> JNull -> nullish x JNull = v).
  { intros x v -> NN. destruct v; simpl; congruence. }
  rewrite E9, E10. split; [apply Q|]. split; [apply Q|].
  split; [apply K|]. split; [apply K|].
  intro NO.
  assert (G : forall key, get (details_of p) key = None).
  { intro key. unfold details_of.
    destruct (lookup "details" p) as [v|]; [|reflexivity].
    destruct v; try reflexivity. now elim (NO fields). }
  rewrite !G in *. simpl in E8. injection E8 as <-. now repeat split.
Qed.

End NormalizerExtras.

(** ** The formatter on any alert *)

Section FormatterExtras.

Context {JN : JsNumber} {RT : JsRuntime}.

Lemma escapeHtml_escapable (v : json) :
  match escapeHtml v with
  | Ok _ => escapable v = true
  | Throw e => escapable v = false /\ e = TypeError
  end.
Proof.
  unfold escapeHtml, escapable. simpl.
  destruct (truthy v) eqn:T; [|destruct v; reflexivity].
  destruct v; simpl; try (now split); reflexivity.
Qed.

Ltac primitive call spec :=
  let H := fresh "H" in
  pose proof spec as H;
  destruct call;
  [ rewrite H; cbn [bind when implb andb]
  | destruct H as [H ->]; rewrite H; cbn [bind when implb andb];
    rewrite ?andb_false_r; split; reflexivity ].

Lemma buildTelegramMessage_renderable (k : NormalizedAlert) :
  match buildTelegramMessage k with
  | Ok _ => renderable k = true
  | Throw e => renderable k = false /\ e = TypeError
  end.
Proof.
  unfold buildTelegramMessage, message_lines, renderable.
  primitive (ToString (alertName k)) (ToString_printable (alertName k)).
  rewrite !escapeHtml_str. cbn [bind]. rewrite !when_Ok. cbn [bind].
  primitive (escapeHtml (severity k)) (escapeHtml_escapable (severity k)).
  primitive (escapeHtml (status k)) (escapeHtml_escapable (status k)).
  destruct (truthy (source k)); cbn [when implb bind andb].
  all: try primitive (escapeHtml (source k)) (escapeHtml_escapable (source k)).
  all: destruct (not_null (currentValue k)); cbn [when implb bind andb].
  all: try primitive (ToString (currentValue k)) (ToString_printable (currentValue k)).
  all: rewrite ?escapeHtml_str; cbn [bind].
  all: destruct (not_null (threshold k)); cbn [when implb bind andb].
  all: try primitive (ToString (threshold k)) (ToString_printable (threshold k)).
  all: rewrite ?escapeHtml_str; cbn [bind].
  all: destruct (truthy (timestamp k)); cbn [when implb bind andb].
  all: try primitive (escapeHtml (formatTime (timestamp k)))
             (escapeHtml_escapable (formatTime (timestamp k))).
  all: destruct (truthy (actionUrl k)); cbn [when implb bind andb].
  all: try primitive (escapeHtml (actionUrl k)) (escapeHtml_escapable (actionUrl k)).
  all: try primitive (escapeHtml (actionText k)) (escapeHtml_escapable (actionText k)).
  all: reflexivity.
Qed.

(** X9.  [buildTelegramMessage] returns exactly on the alerts whose alert
    name and non-null detail values can be printed and whose severity,
    status, source, formatted timestamp, action URL and, with a URL,
    action text are strings or falsy; on any other alert it throws a
    [TypeError]. *)
Theorem buildTelegramMessage_fails_exactly (k : NormalizedAlert) :
  returned (buildTelegramMessage k) = renderable k
  /\ forall e, buildTelegramMessage k = Throw e -> e = TypeError.
Proof.
  pose proof (buildTelegramMessage_renderable k) as H.
  destruct (buildTelegramMessage k) as [msg|e0].
  - split; [now rewrite H | discriminate].
  - destruct H as [H ->]. split; [now rewrite H|]. intros e E. now injection E.
Qed.

End FormatterExtras.

Section LayoutExtras.

Context {JN : JsNumber} {RT : JsRuntime}.

Ltac open_bind H :=
  match type of H with
  | context [bind ?r _] =>
      let E := fresh "E" in
      destruct r eqn:E; cbn [bind] in H; [|discriminate H]
  end.

Lemma when_single (c : bool) (pushed : result (list string)) (l : list string) :
  (forall l', pushed = Ok l' -> length l' = 1) ->
  when c pushed = Ok l -> length l = bool_to_nat c.
Proof.
  intros S H. destruct c; cbn [when] in H.
  - now apply S.
  - apply Ok_inj in H. now subst l.
Qed.

Ltac single_line :=
  let l := fresh "l" in
  let H := fresh "H" in
  intros l H; repeat open_bind H; apply Ok_inj in H; subst l; reflexivity.

Lemma is_string_iff (v : json) (s : string) : is_string v s = true <-> v = JStr s.
Proof.
  destruct v; simpl; try (split; discriminate).
  rewrite String.eqb_eq. split; [now intros -> | intro H; now injection H].
Qed.

(** X10.  The array of lines has between 4 and 12 elements: the title, a
    blank, the Severity and the Status lines, two more for a description
    and one for each of the source, the metric, the two detail values, the
    timestamp and the link that is there.  The title comes first, the
    description third after a blank, and the message begins with the bold
    tag, the glyph of the status and a space. *)
Theorem message_layout (k : NormalizedAlert) (lines : list string) :
  message_lines k = Ok lines ->
  length lines = line_count k
  /\ 4 <= length lines <= 12
  /\ (exists name,
        ToString (alertName k) = Ok name
        /\ nth 0 lines "" = "<b>" ++ escape (statusEmoji k ++ " " ++ name) ++ "</b>")
  /\ (nonempty (description k) = true ->
      nth 1 lines "" = "" /\ nth 2 lines "" = escape (description k))
  /\ starts_with ("<b>" ++ statusEmoji k ++ " ") (String.concat newline lines) = true.
Proof.
  unfold message_lines. intro H.
  destruct (ToString (alertName k)) as [name|] eqn:En; [|discriminate].
  cbn [bind] in H. rewrite !escapeHtml_str in H. cbn [bind] in H.
  rewrite !when_Ok in H. cbn [bind] in H.
  do 7 open_bind H. cbv zeta in H. apply Ok_inj in H. subst lines.
  repeat match goal with
         | E : when _ _ = Ok _ |- _ => apply when_single in E; [|single_line]
         end.
  match goal with
  | |- length ?x = _ /\ _ => assert (L : length x = line_count k)
  end.
  { rewrite !length_app. cbn [length]. unfold line_count.
    repeat match goal with
           | X : length _ = bool_to_nat _ |- _ => rewrite X; clear X
           end.
    destruct (nonempty (description k)), (nonempty (metric k)); simpl; lia. }
  split; [exact L|]. split.
  { rewrite L. unfold line_count, bool_to_nat.
    destruct (nonempty (description k)), (truthy (source k)), (nonempty (metric k)),
      (not_null (currentValue k)), (not_null (threshold k)), (truthy (timestamp k)),
      (truthy (actionUrl k)); simpl; lia. }
  split; [exists name; split; reflexivity|]. split.
  - intros ->. split; reflexivity.
  - rewrite <- (append_assoc (statusEmoji k) " " name), escape_app.
    replace (escape (statusEmoji k ++ " ")) with (statusEmoji k ++ " ")
      by (rewrite escape_app, escape_statusEmoji; reflexivity).
    cbn [app]. destruct (nonempty (description k));
      cbn [app String.concat]; rewrite !append_assoc;
      rewrite <- !(append_assoc "<b>"), <- (append_assoc ("<b>" ++ statusEmoji k));
      apply starts_with_refl_app.
Qed.

(** X11.  The glyphs are chosen by exact comparison: the first status glyph
    for the string ["TRIGGERED"] and for nothing else, the second for
    ["RESOLVED"]; the first severity glyph for ["critical"], the second for
    ["warning"]; every other value, a string in another case or a value
    that is no string, takes the third. *)
Theorem glyph_selection (k : NormalizedAlert) :
  (statusEmoji k = glyph_triggered <-> status k = JStr "TRIGGERED")
  /\ (statusEmoji k = glyph_resolved <-> status k = JStr "RESOLVED")
  /\ (statusEmoji k = glyph_other <->
      status k <> JStr "TRIGGERED" /\ status k <> JStr "RESOLVED")
  /\ (severityEmoji k = glyph_critical <-> severity k = JStr "critical")
  /\ (severityEmoji k = glyph_warning <-> severity k = JStr "warning")
  /\ (severityEmoji k = glyph_default <->
      severity k <> JStr "critical" /\ severity k <> JStr "warning").
Proof.
  unfold statusEmoji, severityEmoji.
  pose proof (is_string_iff (status k) "TRIGGERED") as T.
  pose proof (is_string_iff (status k) "RESOLVED") as R.
  pose proof (is_string_iff (severity k) "critical") as C.
  pose proof (is_string_iff (severity k) "warning") as W.
  destruct (is_string (status k) "TRIGGERED") eqn:ET;
    destruct (is_string (status k) "RESOLVED") eqn:ER;
    destruct (is_string (severity k) "critical") eqn:EC;
    destruct (is_string (severity k) "warning") eqn:EW;
    repeat split; intros;
    try (rewrite (proj1 T eq_refl) in *);
    try (rewrite (proj1 C eq_refl) in *);
    try solve [ reflexivity | discriminate | intuition congruence
              | match goal with X : _ /\ _ |- _ => destruct X; intuition congruence end ].
Qed.

End LayoutExtras.

Section LineExtras.

Context {JN : JsNumber} {RT : JsRuntime}.

Ltac closed_occurs :=
  repeat match goal with
         | |- context [occurs ?p ?l] =>
             let b := eval vm_compute in (occurs p l) in
             change (occurs p l) with b
         end;
  rewrite ?andb_false_r, ?andb_true_r, ?orb_false_r, ?orb_false_l, ?orb_true_r.

Ltac read_lines :=
  rewrite occurs_typed_lines by (vm_compute; reflexivity);
  closed_occurs; reflexivity.

(** X12.  The message of a well-typed alert always has the Severity and
    the Status labels, and it has the Time label exactly when the timestamp
    is not empty; the Time line then carries what [formatTime] returned,
    escaped. *)
Theorem time_line_is_conditional (k : NormalizedAlert) :
  well_typed k = true ->
  exists msg,
    buildTelegramMessage k = Ok msg
    /\ occurs "<b>Severity:</b>" msg = true
    /\ occurs "<b>Status:</b>" msg = true
    /\ occurs "<b>Time:</b>" msg = nonempty (text_of (timestamp k))
    /\ (nonempty (text_of (timestamp k)) = true ->
        occurs (code_line "<b>Time:</b>" (text_of (formatTime (timestamp k)))) msg = true).
Proof.
  intro T. exists (String.concat newline (typed_lines k)).
  split. { unfold buildTelegramMessage. now rewrite (message_lines_typed k T). }
  split; [read_lines|]. split; [read_lines|]. split; [read_lines|].
  intro C. apply occurs_line. unfold typed_lines. rewrite C.
  rewrite !in_app_iff. simpl. tauto.
Qed.

(** On an event typed as [KenerPayload] declares it, [normalize] returns a
    well-typed alert. *)
Lemma normalize_well_typed (now : string) (p : KenerPayload) :
  payload_typed p = true ->
  exists k, normalize now p = Ok k /\ well_typed k = true.
Proof.
  intro P. unfold payload_typed in P.
  apply andb_true_iff in P as [P V2]. apply andb_true_iff in P as [P V1].
  destruct (normalize_typed now p P) as (k & N & S1 & S2 & S3 & S4 & S5 & S6 & S7 & S8).
  destruct (normalize_Ok now p k N) as (_ & _ & _ & _ & _ & _ & _ & _ & E9 & E10 & _).
  exists k. split; [exact N|].
  unfold well_typed. rewrite S1, S2, S3, S4, S5, S6, S7, S8, E9, E10, V1, V2.
  reflexivity.
Qed.

Lemma nonempty_text_truthy (v : json) :
  is_str v = true -> nonempty (text_of v) = truthy v.
Proof. destruct v; try discriminate. intros _. symmetry. apply truthy_str. Qed.

Lemma truthy_or_default_empty (x : option json) :
  truthy (or_default x (JStr "")) = truthy_opt x.
Proof.
  destruct x as [v|]; [|reflexivity]. simpl. destruct (truthy v) eqn:T; [exact T | reflexivity].
Qed.

Lemma call_toString_text (x : option json) (s : string) :
  absent_or_string x = true ->
  call_toString (or_default x (JStr "")) = Ok s -> nonempty s = truthy_opt x.
Proof.
  intros A H. rewrite (call_toString_string x A) in H. apply Ok_inj in H. subst s.
  rewrite nonempty_text_truthy by now apply or_default_string.
  apply truthy_or_default_empty.
Qed.

(** X13.  From a typed event to its message: the link is there exactly
    when the first action has a non-empty URL, the Monitor line exactly
    when the details have a non-empty metric, the Current and Threshold
    lines exactly when the details have a value that is not [null]; the
    Source line is always there. *)
Theorem event_to_lines (now : string) (p : KenerPayload) :
  payload_typed p = true ->
  exists k msg,
    normalize now p = Ok k
    /\ buildTelegramMessage k = Ok msg
    /\ occurs "<a href=" msg = truthy_opt (opt_get (first_action p) "url")
    /\ occurs "<b>Monitor:</b>" msg = truthy_opt (get (details_of p) "metric")
    /\ occurs "<b>Current:</b>" msg
       = not_null (nullish (get (details_of p) "current_value") JNull)
    /\ occurs "<b>Threshold:</b>" msg
       = not_null (nullish (get (details_of p) "threshold") JNull)
    /\ occurs "<b>Source:</b>" msg = true.
Proof.
  intro P. destruct (normalize_well_typed now p P) as (k & N & W).
  exists k, (String.concat newline (typed_lines k)).
  split; [exact N|].
  split. { unfold buildTelegramMessage. now rewrite (message_lines_typed k W). }
  destruct (normalize_Ok now p k N)
    as (_ & _ & _ & _ & E5 & _ & _ & E8 & E9 & E10 & _ & E12).
  assert (T : text_fields_typed p = true).
  { unfold payload_typed in P. now do 2 apply andb_true_iff in P as [P _]. }
  destruct (text_fields_typed_parts p T) as (_ & M & _ & U).
  assert (S : is_str (source k) = true /\ is_str (actionUrl k) = true).
  { unfold well_typed in W. repeat (apply andb_true_iff in W as [W ?]). now split. }
  destruct S as [Ss Su].
  split; [|split; [|split; [|split]]].
  - rewrite occurs_typed_lines by (vm_compute; reflexivity). closed_occurs.
    rewrite (nonempty_text_truthy _ Su), E12. apply truthy_or_default_empty.
  - rewrite occurs_typed_lines by (vm_compute; reflexivity). closed_occurs.
    now apply call_toString_text.
  - rewrite occurs_typed_lines by (vm_compute; reflexivity). closed_occurs.
    now rewrite E9.
  - rewrite occurs_typed_lines by (vm_compute; reflexivity). closed_occurs.
    now rewrite E10.
  - rewrite occurs_typed_lines by (vm_compute; reflexivity). closed_occurs.
    rewrite (nonempty_text_truthy _ Ss), E5. now apply or_default_truthy.
Qed.

End LineExtras.

(** ** The handler, the configuration and startup *)

Section HandlerExtras.

Context {JN : JsNumber} {RT : JsRuntime}.

Lemma post_root_gate (cfg : AppConfig) (now : string) (fetch : Fetch) (req : Request) :
  post_root cfg now fetch req
  = if (nonempty (kenerWebhookSecret cfg)
        && negb (String.eqb (presented req) (kenerWebhookSecret cfg)))%bool
    then ([unauthorized], Ok tt) else relay cfg now fetch req.
Proof.
  unfold post_root. destruct (nonempty (kenerWebhookSecret cfg)); [|reflexivity].
  destruct (String.eqb_spec (presented req) (kenerWebhookSecret cfg)) as [E|N].
  - apply timingSafeEq_true_iff in E. now rewrite E.
  - apply timingSafeEq_false_iff in N. now rewrite N.
Qed.

Lemma post_root_passed (cfg : AppConfig) (now : string) (fetch : Fetch) (req : Request) :
  kenerWebhookSecret cfg = "" \/ presented req = kenerWebhookSecret cfg ->
  post_root cfg now fetch req = relay cfg now fetch req.
Proof.
  intro G. rewrite post_root_gate. destruct G as [G|G].
  - apply nonempty_false_iff in G. now rewrite G.
  - apply String.eqb_eq in G. rewrite G. now rewrite andb_false_r.
Qed.

(** The dispatcher makes one call, whatever the network answers, and
    settles as [sendTelegram] does. *)
Lemma sendTelegram_traced_call (fetch : Fetch) (text : string) (cfg : AppConfig) :
  sendTelegram_traced fetch text cfg
  = ([Outbound (telegram_url cfg) (telegram_init text cfg)], sendTelegram fetch text cfg).
Proof.
  unfold sendTelegram_traced, sendTelegram, fetch_call, traced_bind.
  destruct (fetch (telegram_url cfg) (telegram_init text cfg)) as [resp|e];
    [|reflexivity].
  cbn [bind]. cbv zeta.
  destruct (negb (resp_ok resp) || _)%bool; reflexivity.
Qed.

(** X14.  A request that passes the gate and whose message is rendered:
    the dispatcher, with its calls of [fetch] on record, makes exactly one
    call, to the [sendMessage] URL with that message, whatever the network
    answers.  What the handler does is the 200 response, then the calls of
    the dispatcher, then one log entry exactly when the dispatch fails: the
    rejection of the network when the call rejects, the error of
    [sendTelegram] when the response is refused.  The handler returns in
    every case. *)
Theorem dispatch_failure_is_logged
  (cfg : AppConfig) (now : string) (fetch : Fetch) (req : Request) (msg : string) :
  kenerWebhookSecret cfg = "" \/ presented req = kenerWebhookSecret cfg ->
  (k <- normalize now (req_body req) ;; buildTelegramMessage k) = Ok msg ->
  let sent := Outbound (telegram_url cfg) (telegram_init msg cfg) in
  fst (sendTelegram_traced fetch msg cfg) = [sent]
  /\ snd (sendTelegram_traced fetch msg cfg) = sendTelegram fetch msg cfg
  /\ post_root cfg now fetch req
     = ((acknowledged :: fst (sendTelegram_traced fetch msg cfg)
           ++ match snd (sendTelegram_traced fetch msg cfg) with
              | Ok _ => []
              | Throw e => [ConsoleError e]
              end)%list,
        Ok tt)
  /\ (forall e, fetch (telegram_url cfg) (telegram_init msg cfg) = Throw e ->
      post_root cfg now fetch req = ([acknowledged; sent; ConsoleError e], Ok tt))
  /\ (forall resp, fetch (telegram_url cfg) (telegram_init msg cfg) = Ok resp ->
      let data := match resp_json resp with Ok d => d | Throw _ => JNull end in
      post_root cfg now fetch req
      = ((acknowledged :: sent
            :: if (resp_ok resp && truthy_opt (opt_get (Some data) "ok"))%bool
               then []
               else [ConsoleError (sendTelegram_failed (resp_status resp) data)])%list,
         Ok tt)).
Proof.
  intros G M sent.
  assert (P : post_root cfg now fetch req
              = ((acknowledged :: sent
                    :: match sendTelegram fetch msg cfg with
                       | Ok _ => []
                       | Throw e => [ConsoleError e]
                       end)%list, Ok tt)).
  { rewrite (post_root_passed cfg now fetch req G).
    unfold relay. rewrite M. destruct (sendTelegram fetch msg cfg); reflexivity. }
  rewrite (sendTelegram_traced_call fetch msg cfg). cbn [fst snd app].
  split; [reflexivity|]. split; [reflexivity|]. split; [exact P|].
  pose proof (sendTelegram_cases fetch msg cfg) as C.
  split.
  - intros e F. rewrite F in C. now rewrite P, C.
  - intros resp F. rewrite F in C. cbv zeta in C. rewrite P, C.
    destruct (resp_ok resp && truthy_opt _)%bool; reflexivity.
Qed.

(** X15.  A request that passes the gate with an event that cannot be
    normalised or rendered is answered 200 all the same; then the handler
    throws a [TypeError], and nothing is sent to Telegram or logged. *)
Theorem unrenderable_event_is_dropped
  (cfg : AppConfig) (now : string) (fetch : Fetch) (req : Request) :
  kenerWebhookSecret cfg = "" \/ presented req = kenerWebhookSecret cfg ->
  (returned (normalize now (req_body req)) = false
   \/ exists k, normalize now (req_body req) = Ok k /\ renderable k = false) ->
  post_root cfg now fetch req = ([acknowledged], Throw TypeError).
Proof.
  intros G B. rewrite (post_root_passed cfg now fetch req G). unfold relay.
  assert (E : (k <- normalize now (req_body req) ;; buildTelegramMessage k)
              = Throw TypeError).
  { destruct B as [B|(k & N & R)].
    - pose proof (normalize_fails_throw now (req_body req)) as T.
      destruct (normalize now (req_body req)) as [k|e]; [discriminate|].
      cbn [bind]. now rewrite (T e eq_refl).
    - rewrite N. cbn [bind]. pose proof (buildTelegramMessage_renderable k) as H.
      destruct (buildTelegramMessage k) as [m|e]; [congruence|].
      now destruct H as [_ ->]. }
  now rewrite E.
Qed.

(** X16.  With a secret configured, a request without the token header, or
    with an empty one, is answered 401 and nothing else happens. *)
Theorem missing_token_is_refused
  (cfg : AppConfig) (now : string) (fetch : Fetch) (req : Request) :
  kenerWebhookSecret cfg <> "" ->
  lookup "x-kener-token" (req_headers req) = None
  \/ lookup "x-kener-token" (req_headers req) = Some "" ->
  post_root cfg now fetch req = ([unauthorized], Ok tt).
Proof.
  intros S H. rewrite post_root_gate.
  assert (P : presented req = "").
  { unfold presented. destruct H as [-> | ->]; reflexivity. }
  rewrite P. apply nonempty_true_iff in S. rewrite S.
  destruct (String.eqb_spec "" (kenerWebhookSecret cfg)) as [E|N]; [|reflexivity].
  rewrite <- E in S. discriminate.
Qed.

(** What a loaded configuration holds. *)
Lemma loadConfig_Ok (env : Env) (cfg : AppConfig) :
  loadConfig env = Ok cfg ->
  port_accepted env = true
  /\ is_blank env "TELEGRAM_BOT_TOKEN" = false
  /\ is_blank env "TELEGRAM_CHAT_ID" = false
  /\ kenerWebhookSecret cfg = trim (env_value env "KENER_WEBHOOK_SECRET")
  /\ telegramBotToken cfg = trim (env_value env "TELEGRAM_BOT_TOKEN")
  /\ telegramChatId cfg = trim (env_value env "TELEGRAM_CHAT_ID").
Proof.
  unfold loadConfig, port_accepted, is_blank, env_value. rewrite !str_or_empty.
  destruct (num_is_finite _); [|discriminate]. cbn [negb orb andb].
  destruct (num_le_zero _); [discriminate|]. cbn [negb].
  destruct (nonempty (trim match lookup "TELEGRAM_BOT_TOKEN" env with
                           | Some v => v | None => "" end)); [|discriminate].
  destruct (nonempty (trim match lookup "TELEGRAM_CHAT_ID" env with
                           | Some v => v | None => "" end)); [|discriminate].
  cbn [negb]. intro H. apply Ok_inj in H. subst cfg. now repeat split.
Qed.

(** X17.  The error of a configuration that does not load: an unacceptable
    port is reported first, with the trimmed port text between quotes,
    whatever the credentials are; then a blank bot token; then a blank chat
    id. *)
Theorem loadConfig_error (env : Env) :
  (port_accepted env = false -> loadConfig env = Throw (invalid_port env))
  /\ (port_accepted env = true -> is_blank env "TELEGRAM_BOT_TOKEN" = true ->
      loadConfig env = Throw (Error "Missing TELEGRAM_BOT_TOKEN"))
  /\ (port_accepted env = true -> is_blank env "TELEGRAM_BOT_TOKEN" = false ->
      is_blank env "TELEGRAM_CHAT_ID" = true ->
      loadConfig env = Throw (Error "Missing TELEGRAM_CHAT_ID")).
Proof.
  unfold loadConfig, port_accepted, invalid_port, is_blank, env_value.
  rewrite !str_or_empty.
  destruct (num_is_finite _); cbn [negb orb andb].
  2: { split; [reflexivity|]. split; discriminate. }
  destruct (num_le_zero _); cbn [negb].
  1: { split; [reflexivity|]. split; discriminate. }
  split; [discriminate|]. split; intros _.
  - intros ->. reflexivity.
  - intros -> ->. reflexivity.
Qed.

(** X18.  The secret of a loaded configuration is the trimmed variable: when
    that is blank every request passes the gate, whatever it presents;
    otherwise a request is refused exactly when its trimmed token differs
    from the trimmed secret. *)
Theorem loaded_secret_gate
  (env : Env) (cfg : AppConfig) (now : string) (fetch : Fetch) (req : Request) :
  loadConfig env = Ok cfg ->
  (trim (env_value env "KENER_WEBHOOK_SECRET") = "" ->
   post_root cfg now fetch req = relay cfg now fetch req)
  /\ (trim (env_value env "KENER_WEBHOOK_SECRET") <> "" ->
      (post_root cfg now fetch req = ([unauthorized], Ok tt)
       <-> presented req <> trim (env_value env "KENER_WEBHOOK_SECRET"))).
Proof.
  intro L. destruct (loadConfig_Ok env cfg L) as (_ & _ & _ & S & _).
  rewrite <- S. split.
  - intro E. apply post_root_passed. now left.
  - intro N. rewrite post_root_gate. apply nonempty_true_iff in N. rewrite N.
    cbn [andb]. destruct (String.eqb_spec (presented req) (kenerWebhookSecret cfg)) as [E|D].
    + cbn [negb]. split; [|congruence].
      destruct (relay_trace cfg now fetch req) as (rest & outcome & R & _).
      rewrite R. discriminate.
    + cbn [negb]. split; [now intros _ | reflexivity].
Qed.

(** X19.  Startup leaves the process untouched exactly when the port is
    accepted and neither credential is blank; the configuration it returns
    then holds the parsed port and the trimmed variables.  Otherwise it logs
    the error of [loadConfig] under the tag ["[config] "], sets the exit
    code to 1 and throws that same error, which is one of the three of
    [loadConfig]. *)
Theorem startup_outcome (env : Env) :
  (fst (startup env) = []
   <-> port_accepted env = true
       /\ is_blank env "TELEGRAM_BOT_TOKEN" = false
       /\ is_blank env "TELEGRAM_CHAT_ID" = false)
  /\ (forall cfg, snd (startup env) = Ok cfg ->
      fst (startup env) = []
      /\ port cfg = Number_of_string (trim (str_or (lookup "PORT" env) "3000"))
      /\ kenerWebhookSecret cfg = trim (env_value env "KENER_WEBHOOK_SECRET")
      /\ telegramBotToken cfg = trim (env_value env "TELEGRAM_BOT_TOKEN")
      /\ telegramChatId cfg = trim (env_value env "TELEGRAM_CHAT_ID"))
  /\ (fst (startup env) <> [] ->
      exists err,
        startup env = ([ConfigLog "[config] " err; ExitCode 1], Throw err)
        /\ (err = invalid_port env
            \/ err = Error "Missing TELEGRAM_BOT_TOKEN"
            \/ err = Error "Missing TELEGRAM_CHAT_ID")).
Proof.
  unfold startup, loadConfig, port_accepted, invalid_port, is_blank, env_value.
  rewrite !str_or_empty.
  destruct (num_is_finite _); cbn [negb orb andb].
  2: { split; [split; [discriminate | intros (F & _); discriminate]|].
       split; [discriminate|]. intros _. eexists. split; [reflexivity | now left]. }
  destruct (num_le_zero _); cbn [negb].
  1: { split; [split; [discriminate | intros (F & _); discriminate]|].
       split; [discriminate|]. intros _. eexists. split; [reflexivity | now left]. }
  destruct (nonempty (trim match lookup "TELEGRAM_BOT_TOKEN" env with
                           | Some v => v | None => "" end)); cbn [negb].
  2: { split; [split; [discriminate | intros (_ & F & _); discriminate]|].
       split; [discriminate|]. intros _. eexists. split; [reflexivity|]. right. now left. }
  destruct (nonempty (trim match lookup "TELEGRAM_CHAT_ID" env with
                           | Some v => v | None => "" end)); cbn [negb].
  2: { split; [split; [discriminate | intros (_ & _ & F); discriminate]|].
       split; [discriminate|]. intros _. eexists. split; [reflexivity|]. right. now right. }
  cbn [fst snd]. split; [split; [now repeat split | reflexivity]|].
  split.
  - intros cfg H. apply Ok_inj in H. subst cfg. now repeat split.
  - intro F. now contradiction F.
Qed.

End HandlerExtras.

(** ** The events whose alerts are strings, and the lines they give *)

Section Coercion.

Context {JN : JsNumber} {RT : JsRuntime}.

Lemma is_str_or_default (x : option json) (d : string) :
  is_str (or_default x (JStr d)) = string_or_falsy x.
Proof.
  destruct x as [v|]; [|reflexivity]. cbn [or_default string_or_falsy].
  destruct (truthy v); cbn [negb]; [now rewrite orb_false_r | now rewrite orb_true_r].
Qed.

Lemma nonempty_text_or_default (x : option json) (d : string) :
  d <> "" -> nonempty_text (or_default x (JStr d)) = string_or_falsy x.
Proof.
  intro D. apply nonempty_true_iff in D.
  destruct x as [v|]; [|exact D]. cbn [or_default string_or_falsy].
  destruct (truthy v) eqn:T; cbn [negb].
  - rewrite orb_false_r. destruct v; try reflexivity.
    cbn [nonempty_text is_str]. now rewrite <- truthy_str.
  - rewrite orb_true_r. exact D.
Qed.

Lemma printable_nullish (x : option json) :
  implb (not_null (nullish x JNull)) (printable (nullish x JNull)) = printable_field x.
Proof. destruct x as [v|]; [|reflexivity]. destruct v; reflexivity. Qed.

Lemma escapable_or_default (x : option json) :
  implb (truthy (or_default x (JStr ""))) (escapable (or_default x (JStr "")))
  = string_or_falsy x.
Proof.
  destruct x as [v|]; [|reflexivity]. cbn [or_default string_or_falsy].
  destruct (truthy v) eqn:T; cbn [negb].
  - rewrite T. cbn [implb]. unfold escapable. now rewrite T.
  - now rewrite orb_true_r.
Qed.

(** [normalize] returns exactly when both conversions do. *)
Lemma normalize_returns (now : string) (p : KenerPayload) :
  printable_field (lookup "description" p) = true ->
  printable_field (get (details_of p) "metric") = true ->
  exists k, normalize now p = Ok k.
Proof.
  intros D M.
  destruct (returned_toString_field (lookup "description" p)) as [D1 _].
  destruct (returned_toString_field (get (details_of p) "metric")) as [M1 _].
  rewrite D in D1. rewrite M in M1.
  unfold normalize. fold (details_of p).
  destruct (call_toString (or_default (lookup "description" p) (JStr ""))) as [d|];
    [|discriminate].
  destruct (call_toString (or_default (get (details_of p) "metric") (JStr ""))) as [m|];
    [|discriminate].
  cbn [bind]. eexists. reflexivity.
Qed.

Lemma normalize_returned (now : string) (p : KenerPayload) (k : NormalizedAlert) :
  normalize now p = Ok k ->
  printable_field (lookup "description" p) = true
  /\ printable_field (get (details_of p) "metric") = true.
Proof.
  intro N.
  destruct (normalize_Ok now p k N) as (_ & _ & _ & _ & _ & _ & E7 & E8 & _).
  destruct (returned_toString_field (lookup "description" p)) as [D1 _].
  destruct (returned_toString_field (get (details_of p) "metric")) as [M1 _].
  rewrite E7 in D1. rewrite E8 in M1. split; symmetry; assumption.
Qed.

(** The text fields of the alert are strings exactly when the inbound
    fields are absent, falsy or strings. *)
Lemma strings_coercible (now : string) (p : KenerPayload) (k : NormalizedAlert) :
  normalize now p = Ok k ->
  text_fields_are_strings k = text_fields_coercible p.
Proof.
  intro N. destruct (normalize_returned now p k N) as [D M].
  destruct (normalize_Ok now p k N)
    as (E1 & E2 & E3 & E4 & E5 & E6 & _ & _ & _ & _ & E11 & E12).
  unfold text_fields_are_strings, text_fields_coercible.
  rewrite E1, E2, E3, E4, E5, E6, E11, E12, D, M, !is_str_or_default.
  cbn [forallb]. now rewrite !andb_true_r, !andb_assoc.
Qed.

(** The six fields with a default are non-empty strings exactly when the
    inbound fields are absent, falsy or strings. *)
Lemma labelled_coercible (now : string) (p : KenerPayload) (k : NormalizedAlert) :
  now <> "" ->
  normalize now p = Ok k ->
  labelled k = labelled_fields_coercible p.
Proof.
  intros NZ N.
  destruct (normalize_Ok now p k N)
    as (_ & E2 & E3 & E4 & E5 & E6 & _ & _ & _ & _ & E11 & _).
  unfold labelled, labelled_fields_coercible.
  rewrite E2, E3, E4, E5, E6, E11.
  rewrite (nonempty_text_or_default _ now NZ).
  rewrite !nonempty_text_or_default by discriminate.
  cbn [forallb]. now rewrite !andb_true_r, !andb_assoc.
Qed.

Lemma nonempty_text_string (v : json) :
  nonempty_text v = true -> exists s, v = JStr s /\ nonempty s = true.
Proof. destruct v; try discriminate. intro H. now exists s. Qed.

(** With six non-empty strings, only the detail values and the URL can
    stop the message. *)
Lemma renderable_labelled (k : NormalizedAlert) :
  labelled k = true ->
  renderable k
  = implb (not_null (currentValue k)) (printable (currentValue k))
    && implb (not_null (threshold k)) (printable (threshold k))
    && implb (truthy (actionUrl k)) (escapable (actionUrl k)).
Proof.
  unfold labelled, renderable. intro L.
  do 5 (apply andb_true_iff in L as [L ?]).
  repeat match goal with
         | H : nonempty_text _ = true |- _ =>
             apply nonempty_text_string in H; destruct H as (? & -> & ?)
         end.
  rewrite formatTime_str, !truthy_str.
  repeat match goal with H : nonempty _ = true |- _ => rewrite H; clear H end.
  unfold escapable at 1 2 3 4. cbn [printable is_str orb implb andb].
  replace (escapable (JStr x)) with true by reflexivity.
  now rewrite !andb_true_r, !andb_assoc.
Qed.

Lemma renderable_coercible (now : string) (p : KenerPayload) (k : NormalizedAlert) :
  normalize now p = Ok k ->
  labelled k = true ->
  renderable k
  = printable_field (get (details_of p) "current_value")
    && printable_field (get (details_of p) "threshold")
    && string_or_falsy (opt_get (first_action p) "url").
Proof.
  intros N L. rewrite (renderable_labelled k L).
  destruct (normalize_Ok now p k N)
    as (_ & _ & _ & _ & _ & _ & _ & _ & E9 & E10 & _ & E12).
  now rewrite E9, E10, E12, !printable_nullish, escapable_or_default.
Qed.

(** The labels of a message over a source and a timestamp that are not
    falsy. *)
Lemma message_has_labels (k : NormalizedAlert) (msg : string) :
  truthy (source k) = true -> truthy (timestamp k) = true ->
  buildTelegramMessage k = Ok msg ->
  occurs "<b>Severity:</b>" msg = true /\ occurs "<b>Status:</b>" msg = true
  /\ occurs "<b>Source:</b>" msg = true /\ occurs "<b>Time:</b>" msg = true.
Proof.
  intros T4 T5 B. unfold buildTelegramMessage in B.
  destruct (message_lines k) as [lines|] eqn:L; [|discriminate].
  cbn [bind] in B. injection B as <-.
  destruct (message_lines_has k lines L) as ((s1 & I1) & (s2 & I2) & Hs & Ht).
  destruct (Hs T4) as (s3 & I3). destruct (Ht T5) as (s4 & I4).
  repeat split.
  - apply (occurs_label _ _ _ I1), occurs_app_r.
    change (" <b>Severity:</b> <code>" ++ s1 ++ "</code>")
      with (" " ++ "<b>Severity:</b>" ++ " <code>" ++ s1 ++ "</code>").
    apply occurs_app_r, occurs_here.
  - apply (occurs_label _ _ _ I2).
    change ("<b>Status:</b> <code>" ++ s2 ++ "</code>")
      with ("<b>Status:</b>" ++ " <code>" ++ s2 ++ "</code>").
    apply occurs_here.
  - apply (occurs_label _ _ _ I3).
    change ("<b>Source:</b> <code>" ++ s3 ++ "</code>")
      with ("<b>Source:</b>" ++ " <code>" ++ s3 ++ "</code>").
    apply occurs_here.
  - apply (occurs_label _ _ _ I4).
    change ("<b>Time:</b> <code>" ++ s4 ++ "</code>")
      with ("<b>Time:</b>" ++ " <code>" ++ s4 ++ "</code>").
    apply occurs_here.
Qed.

Lemma normalize_truthy (now : string) (p : KenerPayload) (k : NormalizedAlert) :
  now <> "" ->
  normalize now p = Ok k ->
  truthy (alertName k) = true /\ truthy (severity k) = true
  /\ truthy (status k) = true /\ truthy (source k) = true
  /\ truthy (timestamp k) = true /\ truthy (actionText k) = true.
Proof.
  intros NZ N.
  destruct (normalize_Ok now p k N)
    as (_ & E2 & E3 & E4 & E5 & E6 & _ & _ & _ & _ & E11 & _).
  assert (Tn : truthy (JStr now) = true) by (destruct now; [congruence | reflexivity]).
  rewrite E2, E3, E4, E5, E6, E11.
  repeat split; apply or_default_truthy; solve [reflexivity | exact Tn].
Qed.

(** C3, amended.  [normalize] fails exactly when [toString] cannot print
    the description or the metric.  It returns an alert whose text fields
    are all strings exactly on the events whose [id], [alert_name],
    [severity], [status], [source], [timestamp] and first action's [text]
    and [url] are each absent, falsy or a string, and whose description and
    metric can be printed: a [null], [0] or [false] takes the default, a
    number or an array given as description is printed.  Whenever
    [normalize] returns, a field the event does not have takes its default:
    the empty [id], ["Alert"], ["unknown"], ["UNKNOWN"], ["Kener"], the time
    of the call, the empty description and metric, [null] for the two detail
    values, ["Open"] and the empty URL; a detail value that is there and
    not [null] is kept as it is. *)
Theorem normalize_defaults (now : string) (p : KenerPayload) :
  returned (normalize now p)
  = (printable_field (lookup "description" p)
     && printable_field (get (details_of p) "metric"))%bool
  /\ (text_fields_coercible p = true <->
      exists k, normalize now p = Ok k /\ text_fields_are_strings k = true)
  /\ (forall k, normalize now p = Ok k ->
      (lookup "id" p = None -> id k = JStr "")
      /\ (lookup "alert_name" p = None -> alertName k = JStr "Alert")
      /\ (lookup "severity" p = None -> severity k = JStr "unknown")
      /\ (lookup "status" p = None -> status k = JStr "UNKNOWN")
      /\ (lookup "source" p = None -> source k = JStr "Kener")
      /\ (lookup "timestamp" p = None -> timestamp k = JStr now)
      /\ (lookup "description" p = None -> description k = "")
      /\ (get (details_of p) "metric" = None -> metric k = "")
      /\ (get (details_of p) "current_value" = None -> currentValue k = JNull)
      /\ (get (details_of p) "threshold" = None -> threshold k = JNull)
      /\ (opt_get (first_action p) "text" = None -> actionText k = JStr "Open")
      /\ (opt_get (first_action p) "url" = None -> actionUrl k = JStr "")
      /\ (forall v, get (details_of p) "current_value" = Some v -> v <> JNull ->
          currentValue k = v)
      /\ (forall v, get (details_of p) "threshold" = Some v -> v <> JNull ->
          threshold k = v)).
Proof.
  split; [|split].
  - destruct (normalize now p) as [k|e] eqn:N; cbn [returned].
    + destruct (normalize_returned now p k N) as [D M]. now rewrite D, M.
    + destruct (printable_field (lookup "description" p)) eqn:D; [|reflexivity].
      destruct (printable_field (get (details_of p) "metric")) eqn:M; [|reflexivity].
      destruct (normalize_returns now p D M) as (k & N'). congruence.
  - split.
    + intro C. pose proof C as C'. unfold text_fields_coercible in C'.
      apply andb_true_iff in C' as [C' M]. apply andb_true_iff in C' as [_ D].
      destruct (normalize_returns now p D M) as (k & N).
      exists k. split; [exact N|]. now rewrite (strings_coercible now p k N).
    + intros (k & N & S). now rewrite <- (strings_coercible now p k N).
  - intros k N.
    destruct (normalize_Ok now p k N)
      as (E1 & E2 & E3 & E4 & E5 & E6 & E7 & E8 & E9 & E10 & E11 & E12).
    repeat split; try intros v A; try intro A.
    + now rewrite E1, A.
    + now rewrite E2, A.
    + now rewrite E3, A.
    + now rewrite E4, A.
    + now rewrite E5, A.
    + now rewrite E6, A.
    + rewrite A in E7. simpl in E7. now injection E7 as <-.
    + rewrite A in E8. simpl in E8. now injection E8 as <-.
    + now rewrite E9, A.
    + now rewrite E10, A.
    + now rewrite E11, A.
    + now rewrite E12, A.
    + intro NN. rewrite E9, A. destruct v; simpl; congruence.
    + intro NN. rewrite E10, A. destruct v; simpl; congruence.
Qed.

(** C10, amended.  With a clock that prints a time, [normalize] returns an
    alert whose alert name, severity, status, source, timestamp and action
    text are non-empty strings and from which a message is rendered exactly
    on the events whose [alert_name], [severity], [status], [source],
    [timestamp] and first action's [text] and [url] are each absent, falsy
    or a string, and whose description, metric and two detail values can be
    printed.  On every event on which [normalize] returns, the six fields
    are not falsy; they are non-empty strings exactly when the six inbound
    fields are absent, falsy or strings; a message is rendered exactly when
    the alert is renderable; and a message rendered from the alert has the
    Severity, Status, Source and Time labels. *)
Theorem normalize_never_empty (now : string) (p : KenerPayload) :
  now <> "" ->
  (rendering_coercible p = true <->
   exists k msg,
     normalize now p = Ok k /\ labelled k = true /\ buildTelegramMessage k = Ok msg)
  /\ (forall k, normalize now p = Ok k ->
      (truthy (alertName k) = true /\ truthy (severity k) = true
       /\ truthy (status k) = true /\ truthy (source k) = true
       /\ truthy (timestamp k) = true /\ truthy (actionText k) = true)
      /\ labelled k = labelled_fields_coercible p
      /\ returned (buildTelegramMessage k) = renderable k
      /\ forall msg, buildTelegramMessage k = Ok msg ->
           occurs "<b>Severity:</b>" msg = true /\ occurs "<b>Status:</b>" msg = true
           /\ occurs "<b>Source:</b>" msg = true /\ occurs "<b>Time:</b>" msg = true).
Proof.
  intro NZ. split.
  - unfold rendering_coercible. split.
    + intro C.
      apply andb_true_iff in C as [C V2]. apply andb_true_iff in C as [C V1].
      apply andb_true_iff in C as [C M]. apply andb_true_iff in C as [C D].
      apply andb_true_iff in C as [C U].
      destruct (normalize_returns now p D M) as (k & N).
      assert (L : labelled k = true) by now rewrite (labelled_coercible now p k NZ N).
      pose proof (renderable_coercible now p k N L) as R.
      rewrite V1, V2, U in R.
      pose proof (buildTelegramMessage_renderable k) as B.
      destruct (buildTelegramMessage k) as [msg|e] eqn:Bk.
      * exists k, msg. now repeat split.
      * destruct B as [B _]. rewrite B in R. discriminate.
    + intros (k & msg & N & L & B).
      destruct (normalize_returned now p k N) as [D M].
      pose proof (buildTelegramMessage_renderable k) as R. rewrite B in R.
      rewrite (renderable_coercible now p k N L) in R.
      apply andb_true_iff in R as [R U]. apply andb_true_iff in R as [V1 V2].
      rewrite <- (labelled_coercible now p k NZ N), L, U, D, M, V1, V2. reflexivity.
  - intros k N.
    pose proof (normalize_truthy now p k NZ N) as T.
    split; [exact T|]. split; [exact (labelled_coercible now p k NZ N)|].
    split.
    { pose proof (buildTelegramMessage_renderable k) as R.
      destruct (buildTelegramMessage k); [now rewrite R|].
      destruct R as [R _]. now rewrite R. }
    intros msg B. destruct T as (_ & _ & _ & T4 & T5 & _).
    exact (message_has_labels k msg T4 T5 B).
Qed.

End Coercion.

(** * The further properties at sample inputs *)

Module MoreChecks.

Import Demo Sample MoreSamples.

Lemma escape_round_trip_witness :
  unescape (escape "a < b && c") = "a < b && c".
Proof. destruct escape_round_trip as (H & _). apply H. Defined.

Lemma escape_fixed_points_witness :
  escape (escape "R&D") <> escape "R&D" /\ escape "RnD" = "RnD".
Proof.
  split.
  - apply (escape_fixed_points "R&D"). reflexivity.
  - apply (escape_fixed_points "RnD"). reflexivity.
Defined.

Lemma escapeHtml_on_values_witness :
  escapeHtml (JNum (Int 3)) = Throw TypeError /\ escapeHtml (JNum (Int 0)) = Ok "".
Proof.
  destruct (@escapeHtml_on_values number (@JNum number (Int 3))) as (_ & _ & H & _).
  destruct (@escapeHtml_on_values number (@JNum number (Int 0))) as (_ & H0 & _).
  split; [apply H; reflexivity | apply H0; reflexivity].
Defined.

Lemma only_the_first_action_witness :
  pickAction [("actions", JArr [])] = {| text := JStr "Open"; url := JStr "" |}
  /\ pickAction [("actions", JStr "open")] = {| text := JStr "Open"; url := JStr "" |}.
Proof.
  split.
  - apply (@only_the_first_action number now JNull [] [("actions", JArr [])]).
    reflexivity.
  - apply (@only_the_first_action number now JNull [] [("actions", JStr "open")]).
    reflexivity.
Defined.

Lemma fields_keep_or_default_witness :
  normalize now zeros = Ok zeros_alert
  /\ id zeros_alert = JStr "" /\ severity zeros_alert = JStr "unknown"
  /\ status zeros_alert = JStr "UNKNOWN".
Proof.
  assert (N : normalize now zeros = Ok zeros_alert) by reflexivity.
  destruct (@fields_keep_or_default number now zeros zeros_alert N)
    as ((_ & I) & _ & (_ & S) & (_ & T) & _).
  split; [exact N|].
  split; [apply I; reflexivity|]. split; [apply S; reflexivity | apply T; reflexivity].
Defined.

Lemma details_keep_unless_null_witness :
  currentValue zeros_alert = JNum (Int 0) /\ threshold zeros_alert = JStr "".
Proof.
  assert (N : normalize now zeros = Ok zeros_alert) by reflexivity.
  destruct (@details_keep_unless_null number now zeros zeros_alert N)
    as (_ & _ & C & T & _).
  split; [apply C | apply T]; solve [reflexivity | discriminate].
Defined.

Lemma message_layout_witness :
  length (typed_lines full) = 12
  /\ nth 2 (typed_lines full) "" = "cpu &gt; 90".
Proof.
  assert (L : message_lines full = Ok (typed_lines full)) by reflexivity.
  destruct (@message_layout number runtime full (typed_lines full) L)
    as (C & _ & _ & D & _).
  split; [rewrite C; reflexivity | now apply D].
Defined.

Lemma time_line_is_conditional_witness :
  exists msg,
    buildTelegramMessage undated = Ok msg
    /\ occurs "<b>Severity:</b>" msg = true
    /\ occurs "<b>Time:</b>" msg = false.
Proof.
  destruct (@time_line_is_conditional number runtime undated eq_refl)
    as (msg & B & S & _ & T & _).
  exists msg. repeat split; assumption.
Defined.

Lemma event_to_lines_witness :
  exists k msg,
    normalize now cpu_high = Ok k
    /\ buildTelegramMessage k = Ok msg
    /\ occurs "<a href=" msg = false
    /\ occurs "<b>Source:</b>" msg = true.
Proof.
  destruct (@event_to_lines number runtime now cpu_high eq_refl)
    as (k & msg & N & B & L & _ & _ & _ & S).
  exists k, msg. repeat split; assumption.
Defined.

Lemma dispatch_failure_is_logged_witness :
  fst (sendTelegram_traced unreachable
         (String.concat newline (typed_lines cpu_alert)) config)
  = [Outbound (telegram_url config)
       (telegram_init (String.concat newline (typed_lines cpu_alert)) config)]
  /\ post_root config now unreachable (request "secret")
     = ([acknowledged;
         Outbound (telegram_url config)
           (telegram_init (String.concat newline (typed_lines cpu_alert)) config);
         ConsoleError NetworkError],
        Ok tt).
Proof.
  assert (G : kenerWebhookSecret config = ""
              \/ presented (request "secret") = kenerWebhookSecret config)
    by (right; reflexivity).
  assert (M : (k <- normalize now (req_body (request "secret")) ;;
               buildTelegramMessage k)
              = Ok (String.concat newline (typed_lines cpu_alert)))
    by reflexivity.
  destruct (@dispatch_failure_is_logged number runtime config now unreachable
              (request "secret") (String.concat newline (typed_lines cpu_alert)) G M)
    as (C & _ & _ & F & _).
  split; [exact C | apply F; reflexivity].
Defined.

Lemma unrenderable_event_is_dropped_witness :
  post_root config now (replies accepted) graded_request
  = ([acknowledged], Throw TypeError).
Proof.
  apply (@unrenderable_event_is_dropped number runtime config now (replies accepted)
           graded_request).
  - right. reflexivity.
  - right. exists graded_alert. split; reflexivity.
Defined.

Lemma missing_token_is_refused_witness :
  post_root config now (replies accepted) anonymous = ([unauthorized], Ok tt).
Proof.
  apply (@missing_token_is_refused number runtime config now (replies accepted) anonymous).
  - discriminate.
  - left. reflexivity.
Defined.

Lemma loadConfig_error_witness :
  loadConfig bad_port
  = Throw (Error ("Invalid PORT value " ++ dquote ++ "abc" ++ dquote))
  /\ loadConfig no_chat = Throw (Error "Missing TELEGRAM_CHAT_ID").
Proof.
  destruct (@loadConfig_error number bad_port) as (P & _).
  destruct (@loadConfig_error number no_chat) as (_ & _ & C).
  split; [apply P | apply C]; reflexivity.
Defined.

Lemma loaded_secret_gate_witness :
  post_root {| port := Int 3000; kenerWebhookSecret := "secret";
               telegramBotToken := "123:abc"; telegramChatId := "-100200" |}
    now (replies accepted) (request "secre7")
  = ([unauthorized], Ok tt).
Proof.
  assert (L : loadConfig secured
              = Ok {| port := Int 3000; kenerWebhookSecret := "secret";
                      telegramBotToken := "123:abc"; telegramChatId := "-100200" |})
    by reflexivity.
  destruct (@loaded_secret_gate number runtime secured _ now (replies accepted)
              (request "secre7") L) as (_ & H).
  apply H.
  - apply String.eqb_neq. reflexivity.
  - apply String.eqb_neq. reflexivity.
Defined.

Lemma startup_outcome_witness :
  fst (startup secured) = []
  /\ exists err,
       startup no_chat = ([ConfigLog "[config] " err; ExitCode 1], Throw err).
Proof.
  destruct (@startup_outcome number secured) as (H & _).
  destruct (@startup_outcome number no_chat) as (_ & _ & F).
  split; [apply H; repeat split|].
  assert (N : fst (startup no_chat) <> []) by discriminate.
  destruct (F N) as (err & S & _).
  exists err. exact S.
Defined.

Lemma normalize_fails_exactly_witness :
  returned (normalize now odd_description) = false
  /\ returned (normalize now zeros) = true.
Proof.
  destruct (@normalize_fails_exactly number now odd_description) as (R & _).
  destruct (@normalize_fails_exactly number now zeros) as (Z & _).
  split; [rewrite R | rewrite Z]; reflexivity.
Defined.

Lemma buildTelegramMessage_fails_exactly_witness :
  returned (buildTelegramMessage graded_alert) = false
  /\ returned (buildTelegramMessage zeros_alert) = true.
Proof.
  destruct (@buildTelegramMessage_fails_exactly number runtime graded_alert) as (R & _).
  destruct (@buildTelegramMessage_fails_exactly number runtime zeros_alert) as (Z & _).
  split; [rewrite R | rewrite Z]; reflexivity.
Defined.

Lemma glyph_selection_witness :
  statusEmoji full = glyph_triggered /\ severityEmoji graded_alert = glyph_default.
Proof.
  split.
  - apply (@glyph_selection number full). reflexivity.
  - apply (@glyph_selection number graded_alert). split; discriminate.
Defined.

(** Falsy fields take the defaults; a number and an array are printed. *)
Example normalize_coerced : normalize now coerced = Ok coerced_alert.
Proof. reflexivity. Qed.

(** C3 at an event whose description is [null], at one with falsy fields
    and a description and a metric that are no strings, and at the empty
    object. *)
Lemma normalize_defaults_witness :
  (exists k, normalize now null_description = Ok k /\ text_fields_are_strings k = true)
  /\ (exists k, normalize now coerced = Ok k /\ text_fields_are_strings k = true)
  /\ exists k,
       normalize now [] = Ok k
       /\ id k = JStr "" /\ alertName k = JStr "Alert" /\ severity k = JStr "unknown"
       /\ status k = JStr "UNKNOWN" /\ source k = JStr "Kener" /\ timestamp k = JStr now
       /\ description k = "" /\ metric k = ""
       /\ currentValue k = JNull /\ threshold k = JNull
       /\ actionText k = JStr "Open" /\ actionUrl k = JStr "".
Proof.
  destruct (@normalize_defaults number now null_description) as (_ & (H1 & _) & _).
  destruct (@normalize_defaults number now coerced) as (_ & (H2 & _) & _).
  destruct (@normalize_defaults number now []) as (_ & (H3 & _) & D).
  split; [exact (H1 eq_refl)|]. split; [exact (H2 eq_refl)|].
  destruct (H3 eq_refl) as (k & N & _).
  destruct (D k N) as (D1 & D2 & D3 & D4 & D5 & D6 & D7 & D8 & D9 & D10 & D11 & D12 & _).
  exists k. split; [exact N|].
  repeat split; auto.
Defined.

(** C10 at an event that supplies empty strings. *)
Lemma normalize_never_empty_witness :
  exists k msg,
    normalize now blank = Ok k
    /\ buildTelegramMessage k = Ok msg
    /\ alertName k = JStr "Alert" /\ severity k = JStr "unknown"
    /\ status k = JStr "UNKNOWN" /\ source k = JStr "Kener"
    /\ timestamp k = JStr now /\ actionText k = JStr "Open"
    /\ occurs "<b>Severity:</b>" msg = true /\ occurs "<b>Status:</b>" msg = true
    /\ occurs "<b>Source:</b>" msg = true /\ occurs "<b>Time:</b>" msg = true.
Proof.
  assert (NZ : now <> "") by discriminate.
  destruct (@normalize_never_empty number runtime now blank NZ) as ((H & _) & A).
  destruct (H eq_refl) as (k & msg & N & _ & B).
  destruct (A k N) as (_ & _ & _ & O).
  exists k, msg. split; [exact N|]. split; [exact B|].
  pose proof N as E. cbn in E. apply Ok_inj in E. subst k.
  repeat split; try reflexivity; now apply O.
Defined.

(** C10 as stated fails: the alert of an event whose severity is a number
    has six fields that are not falsy and no message, since rendering
    throws; the alert of an event whose alert name is the empty array has a
    name that is not falsy and prints as nothing. *)
Lemma normalize_output_without_message :
  (normalize now graded = Ok graded_alert
   /\ truthy (severity graded_alert) = true
   /\ buildTelegramMessage graded_alert = Throw TypeError)
  /\ (normalize now unnamed = Ok unnamed_alert
      /\ truthy (alertName unnamed_alert) = true
      /\ nonempty_text (alertName unnamed_alert) = false
      /\ ToString (alertName unnamed_alert) = Ok "").
Proof. repeat split; reflexivity. Qed.

End MoreChecks.
